(** * server.js: the USSD dialog handler of mapaZZZ

    A shallow embedding of [src/server.js]: the in-memory session store, the
    SMS helper [sendTwilioSms], the two Gemini helpers, the two list
    formatters and the [POST /ussd] handler, followed by the properties of
    the specification that concern them. *)

From Stdlib Require Import ZArith NArith List String Ascii Lia DecimalString.
From stdpp Require Import base option list gmap.

Local Open Scope N_scope.

(** ** JavaScript strings

    A JavaScript string is a sequence of UTF-16 code units: [length],
    [substring], [trim] and [includes] all count code units. *)

Definition jsstring := list N.

(** String literals of the source are written [u "..."]: the UTF-8 bytes of
    the literal are decoded to code units (a code point above U+FFFF becomes
    a surrogate pair). *)
Fixpoint utf16_of_utf8 (bs : list N) : jsstring :=
  match bs with
  | [] => []
  | b :: r =>
    if b <? 128 then b :: utf16_of_utf8 r
    else if b <? 224 then
      match r with
      | c :: r' => ((b - 192) * 64 + (c - 128)) :: utf16_of_utf8 r'
      | _ => []
      end
    else if b <? 240 then
      match r with
      | c :: d :: r' =>
        ((b - 224) * 4096 + (c - 128) * 64 + (d - 128)) :: utf16_of_utf8 r'
      | _ => []
      end
    else
      match r with
      | c :: d :: e :: r' =>
        let cp := (b - 240) * 262144 + (c - 128) * 4096 + (d - 128) * 64 + (e - 128) in
        (55296 + (cp - 65536) / 1024) :: (56320 + (cp - 65536) mod 1024)
          :: utf16_of_utf8 r'
      | _ => []
      end
  end.

Definition u (s : string) : jsstring :=
  utf16_of_utf8 (map N_of_ascii (list_ascii_of_string s)).
#[global] Arguments u : simpl never.

(** The characters a Rocq literal cannot hold. *)
Definition nl : jsstring := [10].
Definition dq : jsstring := [34].

(** [a === b] and [a !== b] on strings. *)
Definition str_eqb (a b : jsstring) : bool := bool_decide (a = b).
Infix "===" := str_eqb (at level 70, no associativity).
Notation "a !== b" := (negb (str_eqb a b)) (at level 70, no associativity).

(** A string or [undefined] in a boolean position: [undefined] and [''] are
    falsy. *)
Definition truthy (s : option jsstring) : bool :=
  match s with
  | Some (_ :: _) => true
  | _ => false
  end.

(** [s || d] where [s] is a string or [undefined]. *)
Definition or_else (s : option jsstring) (d : jsstring) : jsstring :=
  match s with
  | Some (c :: r) => c :: r
  | _ => d
  end.

(** [String.prototype.startsWith] and [String.prototype.includes]. *)
Fixpoint startsWith (s p : jsstring) {struct p} : bool :=
  match p, s with
  | [], _ => true
  | c :: p', d :: s' => (c =? d) && startsWith s' p'
  | _ :: _, [] => false
  end.

Fixpoint includes (s p : jsstring) : bool :=
  startsWith s p ||
  match s with
  | [] => false
  | _ :: s' => includes s' p
  end.

(** [s.split(c)] for a one-character separator [c]: the pieces between the
    separators, in order; never the empty array. *)
Fixpoint split (c : N) (s : jsstring) : list jsstring :=
  match s with
  | [] => [[]]
  | d :: s' =>
    if d =? c then [] :: split c s'
    else match split c s' with
         | piece :: rest => (d :: piece) :: rest
         | [] => [[d]]
         end
  end.

(** [Array.prototype.pop]: the last element, [undefined] on the empty array. *)
Definition pop {A} (l : list A) : option A := last l.

(** White space and line terminators, as [String.prototype.trim] strips
    them. *)
Definition is_space (c : N) : bool :=
  ((9 <=? c) && (c <=? 13)) || (c =? 32) || (c =? 160) || (c =? 5760)
  || ((8192 <=? c) && (c <=? 8202)) || (c =? 8232) || (c =? 8233)
  || (c =? 8239) || (c =? 8287) || (c =? 12288) || (c =? 65279).

Fixpoint trimStart (s : jsstring) : jsstring :=
  match s with
  | c :: s' => if is_space c then trimStart s' else s
  | [] => []
  end.

Definition trimEnd (s : jsstring) : jsstring := rev (trimStart (rev s)).

Definition trim (s : jsstring) : jsstring := trimEnd (trimStart s).

(** [s.substring(0, n)]. *)
Definition substring0 (n : nat) (s : jsstring) : jsstring := take n s.

(** A position or a count of an array inside a template literal: its
    decimal digits (an array holds fewer than 2^32 elements, far below
    10^21, where JavaScript turns to the exponent notation). *)
Definition of_nat (n : nat) : jsstring := u (NilEmpty.string_of_uint (Nat.to_uint n)).

(** [Array.prototype.forEach] with a callback that updates one local
    variable: [f acc x index] is the variable after the callback has run on
    element [x] at position [index]. *)
Fixpoint forEach_from {A V} (f : V -> A -> nat -> V) (l : list A) (index : nat) (acc : V) : V :=
  match l with
  | [] => acc
  | x :: l' => forEach_from f l' (S index) (f acc x index)
  end.

Definition forEach {A V} (f : V -> A -> nat -> V) (l : list A) (acc : V) : V :=
  forEach_from f l 0%nat acc.

(** [Array.prototype.slice(0, n)]. *)
Definition slice0 {A} (n : nat) (l : list A) : list A := take n l.

(** ** The data the formatters take

    A zone and a report as the remote API delivers them: an absent field is
    [None]; a risk level is a number. *)

Record zone := {
  location : option jsstring;
  riskLevel : option Z
}.

Record report := {
  title : option jsstring;
  description : option jsstring;
  report_riskLevel : option Z;
  municipality : option jsstring
}.

(** The object literal [riskLevelStringToNumeric]: a key it does not hold
    yields no zone, whether the lookup is [undefined] or an inherited
    property that no [riskLevel] equals. *)
Definition riskLevelStringToNumeric (key : jsstring) : option Z :=
  if key === u "alto" then Some 3%Z
  else if key === u "médio" then Some 2%Z
  else if key === u "baixo" then Some 1%Z
  else None.

(** The object literal [riskLevelNumericToString]. *)
Definition riskLevelNumericToString (key : option Z) : option jsstring :=
  match key with
  | Some 3%Z => Some (u "Alto")
  | Some 2%Z => Some (u "Médio")
  | Some 1%Z => Some (u "Baixo")
  | _ => None
  end.

Definition MAX_ZONES_TO_SHOW : nat := 5.

(** ** Sessions and requests *)

(** A stored session, [{ flow, data }]. *)
Record session := {
  flow : jsstring;
  data : gmap jsstring jsstring
}.

(** The body of a [POST /ussd] request. [sessionId] is the property key the
    handler indexes [sessions] with; an absent field of the others is
    [None]. *)
Record request := {
  sessionId : jsstring;
  serviceCode : option jsstring;
  phoneNumber : option jsstring;
  text : option jsstring
}.

(** ** The two remote services

    What the handler hands to [twilioClient.messages.create] and to
    [ai.models.generateContent], and what comes back: a result, or a thrown
    error. [temperature_tenths] is the [temperature] of the source in
    tenths. *)

Record message_request := {
  msg_body : jsstring;
  msg_from : jsstring;
  msg_to : jsstring
}.

Record generate_request := {
  model : jsstring;
  contents : jsstring;
  temperature_tenths : Z;
  maxOutputTokens : Z
}.

Inductive twilio_reply :=
| Created (sid : jsstring)
| CreateError (code : option Z) (message : option jsstring).

Inductive gemini_reply :=
| Generated (text : option jsstring)
| GenerateError.

(** A call that left the process. *)
Inductive event :=
| MessagesCreate (r : message_request)
| GenerateContent (r : generate_request).

Definition is_sms (e : event) : bool :=
  match e with
  | MessagesCreate _ => true
  | GenerateContent _ => false
  end.

(** An error in flight. *)
Inductive exn :=
| TwilioError (code : option Z) (message : option jsstring)
| GeminiError
| TypeError.

Definition error_code (e : exn) : option Z :=
  match e with
  | TwilioError code _ => code
  | _ => None
  end.

Definition error_message (e : exn) : option jsstring :=
  match e with
  | TwilioError _ message => message
  | _ => None
  end.

Inductive outcome (A : Type) :=
| Ret (a : A)
| Throw (e : exn).
Arguments Ret {A} a.
Arguments Throw {A} e.

(** ** Computations of the server

    A computation runs on the session store [sessions]; it returns or
    throws, leaves a store behind, and records the remote calls it made, in
    order. *)

Definition M (A : Type) : Type :=
  gmap jsstring session -> outcome A * gmap jsstring session * list event.

Definition run {A} (m : M A) (sessions : gmap jsstring session) :
  outcome A * gmap jsstring session * list event := m sessions.

#[global] Instance M_ret : MRet M := fun A a sessions => (Ret a, sessions, []).

#[global] Instance M_bind : MBind M := fun A B k m sessions =>
  match m sessions with
  | (Ret a, sessions', t) =>
    let '(r, sessions'', t') := k a sessions' in (r, sessions'', t ++ t')
  | (Throw e, sessions', t) => (Throw e, sessions', t)
  end.

(** [try { m } catch (error) { h error }]. *)
Definition try_catch {A} (m : M A) (h : exn -> M A) : M A := fun sessions =>
  match m sessions with
  | (Throw e, sessions', t) =>
    let '(r, sessions'', t') := h e sessions' in (r, sessions'', t ++ t')
  | r => r
  end.

(** The store itself: [sessions] is a plain object, and the map holds, for
    a key, the session that [sessions[key]] reads. For every key but
    [__proto__] that is a property of [sessions] itself. Under [__proto__]
    the object keeps its prototype: an assignment of a session to that key
    replaces the prototype, a read yields it, and [delete] finds no property
    of that name on [sessions] itself and removes nothing. What a read finds
    on [Object.prototype] alone has no [flow] and is no session: the key is
    absent from the map. *)
Definition get_sessions : M (gmap jsstring session) :=
  fun sessions => (Ret sessions, sessions, []).

(** [sessions[k] = v]. *)
Definition set_session (k : jsstring) (v : session) : M unit :=
  fun sessions => (Ret tt, <[k := v]> sessions, []).

(** What [delete sessions[k]] leaves of the store. *)
Definition delete_property (k : jsstring) (sessions : gmap jsstring session)
  : gmap jsstring session :=
  if k === u "__proto__" then sessions else delete k sessions.

(** [delete sessions[k]]. *)
Definition delete_session (k : jsstring) : M unit :=
  fun sessions => (Ret tt, delete_property k sessions, []).

(** [sessions[k].flow = f] and [sessions[k].data = d]: a [TypeError] when
    [sessions[k]] is [undefined]. *)
Definition set_flow (k : jsstring) (f : jsstring) : M unit := fun sessions =>
  match sessions !! k with
  | Some s => (Ret tt, <[k := {| flow := f; data := data s |}]> sessions, [])
  | None => (Throw TypeError, sessions, [])
  end.

Definition set_data (k : jsstring) (d : gmap jsstring jsstring) : M unit := fun sessions =>
  match sessions !! k with
  | Some s => (Ret tt, <[k := {| flow := flow s; data := d |}]> sessions, [])
  | None => (Throw TypeError, sessions, [])
  end.

(** [await client.messages.create(r)] and
    [await client.models.generateContent(r)]. *)
Definition messages_create (client : message_request -> twilio_reply) (r : message_request) : M jsstring :=
  fun sessions =>
    match client r with
    | Created sid => (Ret sid, sessions, [MessagesCreate r])
    | CreateError code message => (Throw (TwilioError code message), sessions, [MessagesCreate r])
    end.

Definition generateContent (client : generate_request -> gemini_reply) (r : generate_request) : M (option jsstring) :=
  fun sessions =>
    match client r with
    | Generated text => (Ret text, sessions, [GenerateContent r])
    | GenerateError => (Throw GeminiError, sessions, [GenerateContent r])
    end.

(** ** The pattern [/^\+?[1-9]\d{1,14}$/] *)

Definition is_digit (c : N) : bool := (48 <=? c) && (c <=? 57).
Definition is_digit_1_9 (c : N) : bool := (49 <=? c) && (c <=? 57).

(** [\+?]: one plus sign, when there is one. *)
Definition skip_plus (s : jsstring) : jsstring :=
  match s with
  | c :: s' => if c =? 43 then s' else s
  | [] => s
  end.

(** [/^\+?[1-9]\d{1,14}$/.test(s)]. *)
Definition E164_test (s : jsstring) : bool :=
  match skip_plus s with
  | c :: r =>
    is_digit_1_9 c && forallb is_digit r && (1 <=? length r)%nat && (length r <=? 14)%nat
  | [] => false
  end.

(** The main menu. *)
Definition mainMenu : jsstring :=
  u "CON Bem-vindo ao USSD Service do mapaZZZ" ++ nl
    ++ u "1. Zonas de risco" ++ nl
    ++ u "2. Reportagens" ++ nl
    ++ u "3. Epaludismo (Malária)" ++ nl
    ++ u "4. Soluções de Zonas" ++ nl
    ++ u "5. Dicas de Saúde" ++ nl
    ++ u "6. Contactos de Emergência".

Definition menu_session : session := {| flow := u "menu"; data := ∅ |}.
Definition initial_session : session := {| flow := u "initial"; data := ∅ |}.

(** The last token of the cumulative input [text]. *)
Definition lastInput_of (text : option jsstring) : jsstring :=
  let lastInput :=
    match text with
    | Some (c :: r) =>
      if includes (c :: r) (u "*") then pop (split 42 (c :: r)) else Some (c :: r)
    | _ => Some []
    end in
  match lastInput with
  | Some s => s
  | None => []
  end.

(** The simulated lists of the handler. *)
Record simulated_zone := { sim_location : jsstring; sim_risk : jsstring }.
Record simulated_report := { sim_title : jsstring; sim_report_risk : jsstring }.

Definition sampleZones : list simulated_zone :=
  [ {| sim_location := u "Clínica CSE"; sim_risk := u "Alto" |};
    {| sim_location := u "ISPTC Talatona"; sim_risk := u "Médio" |};
    {| sim_location := u "Mercado Kifica"; sim_risk := u "Baixo" |} ].

Definition sampleReports : list simulated_report :=
  [ {| sim_title := u "Falta de Água"; sim_report_risk := u "Alto" |};
    {| sim_title := u "Lixo na Via"; sim_report_risk := u "Médio" |};
    {| sim_title := u "Poste Caído"; sim_report_risk := u "Alto" |} ].

(** ** The clients at start-up

    The server builds its two clients once, from the environment. A
    constructor that throws is caught and leaves the client [null]: here a
    constructor returns [None] when it throws. The Gemini client needs the
    API key; the Twilio client needs the account SID, the auth token and
    the phone number of the server. *)

Definition initAi (GEMINI_API_KEY : option jsstring)
    (GoogleGenAI : jsstring -> option (generate_request -> gemini_reply))
  : option (generate_request -> gemini_reply) :=
  if truthy GEMINI_API_KEY then GoogleGenAI (or_else GEMINI_API_KEY []) else None.

Definition initTwilio (TWILIO_ACCOUNT_SID TWILIO_AUTH_TOKEN TWILIO_PHONE_NUMBER : option jsstring)
    (twilio : jsstring -> jsstring -> option (message_request -> twilio_reply))
  : option (message_request -> twilio_reply) :=
  if truthy TWILIO_ACCOUNT_SID && truthy TWILIO_AUTH_TOKEN && truthy TWILIO_PHONE_NUMBER
  then twilio (or_else TWILIO_ACCOUNT_SID []) (or_else TWILIO_AUTH_TOKEN [])
  else None.

(** ** Sample collaborators and inputs

    A lower-casing of the ASCII letters, a printer of small integers, a
    provider that accepts every
    message, a service that answers every prompt, a store with one session,
    and a request. *)

Definition toLowerCase_ascii (s : jsstring) : jsstring :=
  map (fun c => if (65 <=? c) && (c <=? 90) then c + 32 else c) s.

(** The decimal digits of an integer: how the engine prints the risk levels
    of the samples. *)
Definition decimal (z : Z) : jsstring := u (NilEmpty.string_of_int (Z.to_int z)).

Definition twilio_accepts : message_request -> twilio_reply :=
  fun _ => Created (u "SM0001").

Definition gemini_answers : generate_request -> gemini_reply :=
  fun _ => Generated (Some (u "30% (Sintomas vagos.)")).

Definition one_session (k f : string) : gmap jsstring session :=
  {[ u k := {| flow := u f; data := ∅ |} ]}.

Definition dial (k phone input : string) : request :=
  {| sessionId := u k; serviceCode := Some (u "*123#");
     phoneNumber := Some (u phone); text := Some (u input) |}.

(** A session waiting for a risk level, the store that holds it, and two
    requests that select the levels Alto and Todas. *)
Definition zones_session : session :=
  {| flow := u "zones_risk_level_selection"; data := ∅ |}.

Definition zones_store : gmap jsstring session := {[ u "s1" := zones_session ]}.

Definition request_alto : request := dial "s1" "+244923000000" "1*1".
Definition request_todas : request := dial "s1" "+244923000000" "1*4".

(** Two reports, of a description 68 and 71 letters long. *)
Definition report68 : report :=
  {| title := Some (u "Lixo"); description := Some (repeat 97 68);
     report_riskLevel := Some 3%Z; municipality := Some (u "Viana") |}.

Definition report71 : report :=
  {| title := Some (u "Lixo"); description := Some (repeat 97 71);
     report_riskLevel := Some 3%Z; municipality := Some (u "Viana") |}.

(** The simulated zones as the formatter takes them. *)
Definition sampleZones_numeric : list zone :=
  [ {| location := Some (u "Clínica CSE"); riskLevel := Some 3%Z |};
    {| location := Some (u "ISPTC Talatona"); riskLevel := Some 2%Z |};
    {| location := Some (u "Mercado Kifica"); riskLevel := Some 1%Z |} ].

(** A service that throws and one that answers with no text, a provider
    that refuses the number, and more stores and requests of the session
    [s1]. *)
Definition gemini_throws : generate_request -> gemini_reply := fun _ => GenerateError.

Definition gemini_silent : generate_request -> gemini_reply := fun _ => Generated None.

Definition twilio_refuses : message_request -> twilio_reply :=
  fun _ => CreateError (Some 21211%Z) (Some (u "The number is not a valid phone number.")).

Definition menu_store : gmap jsstring session := {[ u "s1" := menu_session ]}.
Definition other_store : gmap jsstring session := {[ u "s2" := menu_session ]}.
Definition two_sessions : gmap jsstring session := <[ u "s2" := menu_session ]> menu_store.

Definition symptoms_session : session := {| flow := u "symptoms_input"; data := ∅ |}.
Definition symptoms_store : gmap jsstring session := {[ u "s1" := symptoms_session ]}.

Definition reports_session : session :=
  {| flow := u "reports_municipality_selection"; data := ∅ |}.
Definition reports_store : gmap jsstring session := {[ u "s1" := reports_session ]}.

Definition health_session : session := {| flow := u "health_tips_menu"; data := ∅ |}.
Definition health_store : gmap jsstring session := {[ u "s1" := health_session ]}.

Definition stray_session : session := {| flow := u "checkout"; data := ∅ |}.
Definition stray_store : gmap jsstring session := {[ u "s1" := stray_session ]}.

(** A session stored under the key [__proto__], and two requests with that
    key. *)
Definition proto_store : gmap jsstring session := {[ u "__proto__" := menu_session ]}.
Definition proto_start : request := dial "__proto__" "+244923000000" "".
Definition proto_9 : request := dial "__proto__" "+244923000000" "9".

Definition request_start : request := dial "s1" "+244923000000" "".
Definition request_zones : request := dial "s1" "+244923000000" "1".
Definition request_9 : request := dial "s1" "+244923000000" "9".
Definition request_fever : request := dial "s1" "+244923000000" "3*febre forte".
Definition request_back : request := dial "s1" "+244923000000" "1*5".
Definition request_viana : request := dial "s1" "+244923000000" "2*3".
Definition request_tip : request := dial "s1" "+244923000000" "5*2".

(** A zone of high risk, and five more of them with one of low risk. *)
Definition high_zone : zone := {| location := Some (u "Viana"); riskLevel := Some 3%Z |}.
Definition low_zone : zone := {| location := Some (u "Belas"); riskLevel := Some 1%Z |}.
Definition more_zones : list zone := repeat high_zone 5 ++ [low_zone].

Section Server.

Set Default Proof Using "Type".

(** [String.prototype.toLowerCase], the case mapping of the JavaScript
    engine. *)
Variable toLowerCase : jsstring -> jsstring.

(** A number inside a template literal, as the JavaScript engine prints it:
    the decimal digits of an integer below 10^21 in absolute value, the
    exponent notation from there on. *)
Variable Number_toString : Z -> jsstring.

(** The module-level clients: [None] is the [null] they hold when the
    credentials are absent or the initialisation failed. *)
Variable ai : option (generate_request -> gemini_reply).
Variable twilioClient : option (message_request -> twilio_reply).
Variable TWILIO_PHONE_NUMBER : jsstring.

(** *** The SMS helper *)

Definition smsUnavailable : jsstring :=
  u "Serviço SMS indisponível. Verifique as credenciais Twilio.".
Definition smsMissing : jsstring :=
  u "Número do destinatário ou mensagem em falta.".
Definition smsInvalid (to : jsstring) : jsstring :=
  u "Número de destino (" ++ to
    ++ u ") inválido. Use formato internacional (ex: +244XXXXXXXXX).".

Definition sendTwilioSms (to : option jsstring) (body : jsstring) : M jsstring :=
  match twilioClient with
  | None => mret smsUnavailable
  | Some client =>
    if negb (truthy to) || negb (truthy (Some body)) then mret smsMissing
    else
      let to := or_else to [] in
      if negb (E164_test to) then mret (smsInvalid to)
      else
        try_catch
          (message ← messages_create client
                       {| msg_body := body; msg_from := TWILIO_PHONE_NUMBER; msg_to := to |};
           mret (u "SMS enviado para " ++ to ++ u "!"))
          (fun error =>
             if bool_decide (error_code error = Some 21211%Z) then
               mret (u "Falha ao enviar SMS: Número de destino (" ++ to ++ u ") inválido.")
             else if bool_decide (error_code error = Some 21610%Z)
                     || bool_decide (error_code error = Some 21612%Z)
                     || bool_decide (error_code error = Some 21614%Z) then
               mret (u "Falha ao enviar SMS: O número " ++ to
                       ++ u " não pode receber mensagens deste remetente.")
             else if bool_decide (error_code error = Some 21408%Z) then
               mret (u "Falha ao enviar SMS: Não há permissão para enviar SMS para a região do número "
                       ++ to ++ u ".")
             else
               mret (u "Falha ao enviar SMS para " ++ to ++ u ". ("
                       ++ or_else (error_message error) (u "Erro desconhecido") ++ u ")"))
  end.

(** *** The Gemini helpers *)

Definition aiUnavailable : jsstring :=
  u "Serviço de IA indisponível. Verifique a configuração da API_KEY.".

Definition malariaPrompt (symptomsDescription : jsstring) : jsstring :=
  u "Analise os sintomas para malária: " ++ dq ++ symptomsDescription ++ dq
    ++ u ". FORNEÇA OBRIGATORIAMENTE uma probabilidade em percentagem (0% a 100%) de ser malária. A resposta DEVE iniciar com a percentagem (ex: "
    ++ dq ++ u "30%" ++ dq
    ++ u "). Após a percentagem, adicione uma explicação MUITO BREVE (máximo 45 caracteres para a explicação, em português). Não mencione outras doenças. Se a certeza for baixa, use uma percentagem baixa. Exemplo 1: "
    ++ dq ++ u "10% (Sintomas vagos.)" ++ dq ++ u " Exemplo 2: "
    ++ dq ++ u "85% (Sintomas clássicos.)" ++ dq.

Definition getMalariaProbabilityJS (symptomsDescription : option jsstring) : M jsstring :=
  match ai with
  | None => mret aiUnavailable
  | Some client =>
    if negb (truthy symptomsDescription) || (trim (or_else symptomsDescription []) === []) then
      mret (u "Nenhum sintoma fornecido para análise.")
    else
      let prompt := malariaPrompt (or_else symptomsDescription []) in
      try_catch
        (result ← generateContent client
                    {| model := u "gemini-1.5-flash-latest"; contents := prompt;
                       temperature_tenths := 7; maxOutputTokens := 60 |};
         mret (or_else result (u "Não foi possível obter uma análise dos sintomas.")))
        (fun error => mret (u "Erro ao analisar sintomas. Tente mais tarde."))
  end.

Definition zonePrompt (problemDescription : jsstring) : jsstring :=
  u "Para o seguinte problema de zona em Angola: " ++ dq ++ problemDescription ++ dq
    ++ u ", forneça uma solução prática e muito concisa em português (máximo 150 caracteres). Exemplo: 'Lixo acumulado' -> 'Reporte à administração local para limpeza.'".

Definition getZoneSolutionJS (problemDescription : option jsstring) : M jsstring :=
  match ai with
  | None => mret aiUnavailable
  | Some client =>
    if negb (truthy problemDescription) || (trim (or_else problemDescription []) === []) then
      mret (u "Nenhuma descrição do problema fornecida.")
    else
      let prompt := zonePrompt (or_else problemDescription []) in
      try_catch
        (result ← generateContent client
                    {| model := u "gemini-1.5-flash-latest"; contents := prompt;
                       temperature_tenths := 5; maxOutputTokens := 80 |};
         mret (or_else result (u "Não foi possível obter uma sugestão.")))
        (fun error => mret (u "Erro ao obter sugestão. Tente mais tarde."))
  end.

(** *** The formatters *)

(** [n || 'N/D'] inside a template literal, for a number or [undefined]. *)
Definition num_or_ND (n : option Z) : jsstring :=
  match n with
  | Some z => if (z =? 0)%Z then u "N/D" else Number_toString z
  | None => u "N/D"
  end.

Definition displayRisk (z : zone) : jsstring :=
  match riskLevelNumericToString (riskLevel z) with
  | Some label => label
  | None => num_or_ND (riskLevel z)
  end.

(** One turn of the [forEach] of [formatZonesForUSSD]. *)
Definition zone_line (index : nat) (z : zone) : jsstring :=
  of_nat (index + 1) ++ u ". " ++ or_else (location z) (u "Local Desconhecido")
    ++ u " (" ++ displayRisk z ++ u ")" ++ nl.

Definition noZonesMessage (riskLevelFilter : option jsstring) : jsstring :=
  let filterText :=
    match riskLevelFilter with
    | Some (c :: r) => toLowerCase (c :: r) ++ u " "
    | _ => []
    end in
  u "Nenhuma zona de risco " ++ filterText ++ u "encontrada.".

Definition filterZones (zones : list zone) (riskLevelFilter : option jsstring) : list zone :=
  match riskLevelFilter with
  | Some (c :: r) =>
    match riskLevelStringToNumeric (toLowerCase (c :: r)) with
    | Some numericEquivalent =>
      List.filter (fun z => bool_decide (riskLevel z = Some numericEquivalent)) zones
    | None => []
    end
  | _ => zones
  end.

Definition messageHeader (riskLevelFilter : option jsstring) : jsstring :=
  match riskLevelFilter with
  | Some (c :: r) => u "Zonas de Risco " ++ (c :: r) ++ u ":" ++ nl
  | _ => u "Zonas de Risco (Todas):" ++ nl
  end.

Definition formatZonesForUSSD (zones : option (list zone)) (riskLevelFilter : option jsstring) : jsstring :=
  match zones with
  | None | Some [] => noZonesMessage riskLevelFilter
  | Some zones =>
    let filteredZones := filterZones zones riskLevelFilter in
    if (length filteredZones =? 0)%nat then noZonesMessage riskLevelFilter
    else
      let responseMessage := messageHeader riskLevelFilter in
      let zonesToShow := slice0 MAX_ZONES_TO_SHOW filteredZones in
      let responseMessage :=
        forEach (fun acc z index => acc ++ zone_line index z) zonesToShow responseMessage in
      let responseMessage :=
        if (length zonesToShow <? length filteredZones)%nat
        then responseMessage ++ u "Mais " ++ of_nat (length filteredZones - length zonesToShow)
               ++ u " zonas disponíveis."
        else responseMessage in
      trim responseMessage
  end.

(** [municipalityFilter && lower !== 'outro' && lower !== 'todos']. *)
Definition isSpecificMunicipality (municipalityFilter : option jsstring) : bool :=
  match municipalityFilter with
  | Some (c :: r) =>
    (toLowerCase (c :: r) !== u "outro") && (toLowerCase (c :: r) !== u "todos")
  | _ => false
  end.

Definition filterReports (reports : list report) (municipalityFilter : option jsstring) : list report :=
  match municipalityFilter with
  | Some f =>
    if isSpecificMunicipality municipalityFilter then
      List.filter (fun r =>
        match municipality r with
        | Some (c :: m) => toLowerCase (c :: m) === toLowerCase f
        | _ => false
        end) reports
    else reports
  | None => reports
  end.

(** The displayed description of a report. *)
Definition displayDescription (r : report) : jsstring :=
  let desc := or_else (description r) (u "Sem descrição.") in
  if (70 <? length desc)%nat then substring0 67 desc ++ u "..." else desc.

(** One turn of the [forEach] of [formatReportsForUSSD]. *)
Definition report_line (r : report) : jsstring :=
  or_else (title r) (u "N/A") ++ u ": " ++ displayDescription r
    ++ u " (Risco: " ++ num_or_ND (report_riskLevel r) ++ u ")" ++ nl.

(** The two messages for an empty result: of an empty input, and of an
    empty selection. *)
Definition noReportsMessage (municipalityFilter : option jsstring) : jsstring :=
  u "Nenhuma reportagem "
    ++ match municipalityFilter with
       | Some (c :: r) => u "para " ++ (c :: r) ++ u " "
       | _ => []
       end
    ++ u "encontrada.".

Definition noReportsFor (municipalityFilter : option jsstring) : jsstring :=
  u "Nenhuma reportagem para " ++ or_else municipalityFilter [] ++ u " encontrada.".

(** The first value of [message]. *)
Definition reportsHeader (municipalityFilter : option jsstring) : jsstring :=
  u "Reportagens "
    ++ match municipalityFilter with
       | Some (c :: r) =>
         if toLowerCase (c :: r) !== u "todos" then c :: r else u "Geral"
       | _ => u "Geral"
       end
    ++ u ":" ++ nl.

Definition formatReportsForUSSD (reports : option (list report)) (municipalityFilter : option jsstring) : jsstring :=
  match reports with
  | None | Some [] => noReportsMessage municipalityFilter
  | Some reports =>
    let filteredReports := filterReports reports municipalityFilter in
    if (length filteredReports =? 0)%nat && isSpecificMunicipality municipalityFilter
    then noReportsFor municipalityFilter
    else
      let message := reportsHeader municipalityFilter in
      let reportsToShow := slice0 1 filteredReports in
      let message := forEach (fun acc r _ => acc ++ report_line r) reportsToShow message in
      let message :=
        if (length reportsToShow <? length filteredReports)%nat
        then message ++ u "Mais " ++ of_nat (length filteredReports - length reportsToShow)
               ++ u " reportagens."
        else message in
      trim message
  end.

(** *** The [POST /ussd] handler *)

(** One item of a simulated list, and the two messages the [forEach] of
    the handler builds from it: the USSD copy and the SMS copy. *)
Definition list_item (index : nat) (name risk : jsstring) : jsstring :=
  of_nat (index + 1) ++ u ". " ++ name ++ u " (" ++ risk ++ u ")".

Definition add_item (total : nat) (acc : jsstring * jsstring) (index : nat) (name risk : jsstring)
  : jsstring * jsstring :=
  let item := list_item index name risk in
  (fst acc ++ item ++ nl,
   snd acc ++ item ++ (if (index =? total - 1)%nat then [] else nl)).

Definition handler (req : request) : M jsstring :=
  let response : jsstring := [] in
  sessions ← get_sessions;
  session ←
    match sessions !! sessionId req with
    | Some s =>
      if negb (truthy (Some (flow s))) then
        set_session (sessionId req) initial_session;; mret initial_session
      else mret s
    | None => set_session (sessionId req) initial_session;; mret initial_session
    end;
  let currentFlow := flow session in
  let lastInput := lastInput_of (text req) in
  if (lastInput === []) && (currentFlow !== u "initial") && (currentFlow !== u "menu") then
    set_session (sessionId req) menu_session;;
    mret mainMenu
  else if (currentFlow === u "initial") || ((currentFlow === u "menu") && (lastInput === [])) then
    let response := mainMenu in
    set_session (sessionId req) menu_session;;
    mret response
  else if currentFlow === u "menu" then
    set_data (sessionId req) ∅;;
    if lastInput === u "1" then
      let response :=
        u "CON Escolha o nível de risco:" ++ nl ++ u "1. Alto" ++ nl ++ u "2. Médio" ++ nl
          ++ u "3. Baixo" ++ nl ++ u "4. Todas" ++ nl ++ u "5. Menu Principal" in
      set_flow (sessionId req) (u "zones_risk_level_selection");;
      mret response
    else if lastInput === u "2" then
      let response :=
        u "CON Município para reportagens:" ++ nl ++ u "1. Belas" ++ nl ++ u "2. Zango" ++ nl
          ++ u "3. Viana" ++ nl ++ u "4. Outro (Geral)" ++ nl ++ u "5. Todos (Geral)" ++ nl
          ++ u "6. Menu Principal" in
      set_flow (sessionId req) (u "reports_municipality_selection");;
      mret response
    else if lastInput === u "3" then
      let response := u "CON Descreva os seus sintomas (ex: febre, dor de cabeça):" in
      set_flow (sessionId req) (u "symptoms_input");;
      mret response
    else if lastInput === u "4" then
      let response := u "CON Descreva o problema na sua zona:" in
      set_flow (sessionId req) (u "zone_problem_input");;
      mret response
    else if lastInput === u "5" then
      let response :=
        u "CON Dicas de Saúde:" ++ nl ++ u "1. Prevenção da Malária" ++ nl
          ++ u "2. Saneamento Básico" ++ nl ++ u "3. Primeiros Socorros (Básico)" ++ nl
          ++ u "4. Menu Principal" in
      set_flow (sessionId req) (u "health_tips_menu");;
      mret response
    else if lastInput === u "6" then
      let response :=
        u "END Contactos Úteis:" ++ nl ++ u "Policia: 113" ++ nl ++ u "Bombeiros: 115" ++ nl
          ++ u "Ambulância (INEMA): 112" ++ nl ++ u "Proteção Civil: 117" ++ nl
          ++ u "Violência Doméstica: 146" in
      delete_session (sessionId req);;
      mret response
    else
      let response := u "END Seleção inválida." in
      delete_session (sessionId req);;
      mret response
  else if currentFlow === u "zones_risk_level_selection" then
    if lastInput === u "5" then
      let response := mainMenu in
      set_session (sessionId req) menu_session;;
      mret response
    else
      '(selectedRiskLevel, response) ←
        (if lastInput === u "1" then mret (Some (u "Alto"), response)
         else if lastInput === u "2" then mret (Some (u "Médio"), response)
         else if lastInput === u "3" then mret (Some (u "Baixo"), response)
         else if lastInput === u "4" then mret (None, response)
         else
           delete_session (sessionId req);;
           mret (Some [], u "END Seleção inválida para Zonas."));
      if response === [] then
        let '(ussdZoneMessage, smsZoneMessage) :=
          forEach
            (fun acc zone index =>
               add_item (length sampleZones) acc index (sim_location zone) (sim_risk zone))
            sampleZones
            (u "Zonas (Simulado):" ++ nl, u "Zonas Risco (MapaZZZ):" ++ nl) in
        let ussdZoneMessage := trim ussdZoneMessage in
        smsConfirmation ← sendTwilioSms (phoneNumber req) smsZoneMessage;
        let response := u "END " ++ ussdZoneMessage ++ nl ++ smsConfirmation in
        delete_session (sessionId req);;
        mret response
      else mret response
  else if currentFlow === u "reports_municipality_selection" then
    if lastInput === u "6" then
      let response := mainMenu in
      set_session (sessionId req) menu_session;;
      mret response
    else
      '(selectedMunicipality, response) ←
        (if lastInput === u "1" then mret (u "Belas", response)
         else if lastInput === u "2" then mret (u "Zango", response)
         else if lastInput === u "3" then mret (u "Viana", response)
         else if lastInput === u "4" then mret (u "Outro", response)
         else if lastInput === u "5" then mret (u "Todos", response)
         else
           delete_session (sessionId req);;
           mret ([], u "END Seleção inválida para Reportagens."));
      if response === [] then
        let '(ussdReportMessage, smsReportMessage) :=
          forEach
            (fun acc report index =>
               add_item (length sampleReports) acc index (sim_title report) (sim_report_risk report))
            sampleReports
            (u "Reportagens (Simulado):" ++ nl, u "Reportagens (MapaZZZ):" ++ nl) in
        let ussdReportMessage := trim ussdReportMessage in
        smsConfirmation ← sendTwilioSms (phoneNumber req) smsReportMessage;
        let response := u "END " ++ ussdReportMessage ++ nl ++ smsConfirmation in
        delete_session (sessionId req);;
        mret response
      else mret response
  else if currentFlow === u "symptoms_input" then
    let symptoms := lastInput in
    if negb (truthy (Some symptoms)) || (trim symptoms === []) then
      let response := u "END Por favor, forneça uma descrição dos sintomas. Tente novamente." in
      delete_session (sessionId req);;
      mret response
    else
      analysisResult ← getMalariaProbabilityJS (Some symptoms);
      response ←
        (if includes analysisResult (u "indisponível")
            || includes analysisResult (u "Erro ao analisar")
            || includes analysisResult (u "Nenhum sintoma fornecido") then
           mret (u "END " ++ analysisResult)
         else
           let smsBody :=
             u "Resultado da sua análise de sintomas (USSD MapaZZZ): " ++ analysisResult in
           smsSendConfirmation ← sendTwilioSms (phoneNumber req) smsBody;
           mret (u "END Análise: " ++ analysisResult ++ u " " ++ smsSendConfirmation));
      delete_session (sessionId req);;
      mret response
  else if currentFlow === u "zone_problem_input" then
    let problemDescription := lastInput in
    if negb (truthy (Some problemDescription)) || (trim problemDescription === []) then
      let response := u "END Por favor, forneça uma descrição do problema. Tente novamente." in
      delete_session (sessionId req);;
      mret response
    else
      solutionResult ← getZoneSolutionJS (Some problemDescription);
      response ←
        (if includes solutionResult (u "indisponível")
            || includes solutionResult (u "Erro ao obter")
            || includes solutionResult (u "Nenhuma descrição do problema") then
           mret (u "END " ++ solutionResult)
         else
           let smsBody :=
             u "Sugestão para o problema na sua zona (USSD MapaZZZ): " ++ solutionResult in
           smsSendConfirmation ← sendTwilioSms (phoneNumber req) smsBody;
           mret (u "END Sugestão: " ++ solutionResult ++ u " " ++ smsSendConfirmation));
      delete_session (sessionId req);;
      mret response
  else if currentFlow === u "health_tips_menu" then
    '(tipText, response) ←
      (if lastInput === u "1" then
         mret (u "Malária: Use mosquiteiro, elimine água parada, procure médico aos primeiros sintomas.",
               response)
       else if lastInput === u "2" then
         mret (u "Saneamento: Mantenha quintal limpo, lixo no lugar certo, lave as mãos. Saúde!",
               response)
       else if lastInput === u "3" then
         mret (u "1os Socorros: Queimadura leve? Água fria. Cortes? Limpe e cubra. Grave? Ajuda médica!",
               response)
       else if lastInput === u "4" then
         set_session (sessionId req) menu_session;;
         mret ([], mainMenu)
       else
         delete_session (sessionId req);;
         mret ([], u "END Seleção inválida."));
    if (tipText !== []) && (response === []) then
      let smsBody := u "Dica de Saúde (USSD MapaZZZ): " ++ tipText in
      smsConfirmation ← sendTwilioSms (phoneNumber req) smsBody;
      let response := u "END " ++ tipText ++ u " " ++ smsConfirmation in
      delete_session (sessionId req);;
      mret response
    else mret response
  else
    let response := mainMenu in
    set_session (sessionId req) menu_session;;
    mret response.

(** *** The vocabulary of the properties *)

(** What the two formatters return when they list entries: the header, one
    line for each entry of [shown], and the count of those left out. *)
Definition zonesListing (riskLevelFilter : option jsstring) (shown : list zone) (remaining : nat)
  : jsstring :=
  trim (messageHeader riskLevelFilter ++ concat (imap zone_line shown)
          ++ if (0 <? remaining)%nat
             then u "Mais " ++ of_nat remaining ++ u " zonas disponíveis." else []).

Definition reportsListing (municipalityFilter : option jsstring) (shown : list report) (remaining : nat)
  : jsstring :=
  trim (reportsHeader municipalityFilter ++ concat (map report_line shown)
          ++ if (0 <? remaining)%nat
             then u "Mais " ++ of_nat remaining ++ u " reportagens." else []).

(** The two copies of the simulated list, as the [forEach] builds them. *)
Definition zonesUssdText : jsstring :=
  u "Zonas (Simulado):" ++ nl ++ u "1. Clínica CSE (Alto)" ++ nl
    ++ u "2. ISPTC Talatona (Médio)" ++ nl ++ u "3. Mercado Kifica (Baixo)".

Definition zonesSmsText : jsstring :=
  u "Zonas Risco (MapaZZZ):" ++ nl ++ u "1. Clínica CSE (Alto)" ++ nl
    ++ u "2. ISPTC Talatona (Médio)" ++ nl ++ u "3. Mercado Kifica (Baixo)".

(** The tokens that select a risk level: Alto, Médio, Baixo, Todas. *)
Definition riskLevelTokens : list jsstring := [u "1"; u "2"; u "3"; u "4"].

(** What the zones branch does once a level is selected. *)
Definition zonesReply (k : jsstring) (to : option jsstring) : M jsstring :=
  smsConfirmation ← sendTwilioSms to zonesSmsText;
  delete_session k;;
  mret (u "END " ++ zonesUssdText ++ nl ++ smsConfirmation).

(** The texts the handler looks for in the result of a helper. *)
Definition symptomsFailureMarkers : list jsstring :=
  [u "indisponível"; u "Erro ao analisar"; u "Nenhum sintoma fornecido"].

Definition zoneFailureMarkers : list jsstring :=
  [u "indisponível"; u "Erro ao obter"; u "Nenhuma descrição do problema"].

Definition hasMarker (markers : list jsstring) (result : jsstring) : bool :=
  existsb (includes result) markers.

(** What an analysis branch leaves: the response, the store and the calls,
    from the result of the helper. *)
Definition analysisOutcome (helper : M jsstring) (markers : list jsstring)
    (smsPrefix ussdPrefix : jsstring) (req : request) (sessions : gmap jsstring session)
    (r : outcome jsstring * gmap jsstring session * list event) : Prop :=
  exists result t1,
    run helper sessions = (Ret result, sessions, t1)
    /\ existsb is_sms t1 = false
    /\ if hasMarker markers result
       then r = (Ret (u "END " ++ result), delete_property (sessionId req) sessions, t1)
       else exists confirmation t2,
           run (sendTwilioSms (phoneNumber req) (smsPrefix ++ result)) sessions
             = (Ret confirmation, sessions, t2)
           /\ r = (Ret (ussdPrefix ++ result ++ u " " ++ confirmation),
                   delete_property (sessionId req) sessions, t1 ++ t2).

(** [wp m Q sessions]: run on [sessions], [m] returns, and the value it
    returns, the store it leaves and the calls it made satisfy [Q]. *)
Definition wp {A} (m : M A) (Q : A -> gmap jsstring session -> list event -> Prop)
    (sessions : gmap jsstring session) : Prop :=
  exists a sessions' t, run m sessions = (Ret a, sessions', t) /\ Q a sessions' t.

(** The flows a session is left in. *)
Definition liveFlows : list jsstring :=
  [u "menu"; u "zones_risk_level_selection"; u "reports_municipality_selection";
   u "symptoms_input"; u "zone_problem_input"; u "health_tips_menu"].

(** What a request does to the store: a [CON] response leaves the session
    of the request in one of the live flows, with empty data; an [END]
    response comes after [delete sessions[sessionId]], run on the store as
    it was, or on the store with the data of the session emptied. *)
Definition storeEffect (req : request) (sessions : gmap jsstring session)
    (response : jsstring) (sessions' : gmap jsstring session) : Prop :=
  (startsWith response (u "CON ") = true
   /\ exists f, In f liveFlows
        /\ sessions' = <[sessionId req := {| flow := f; data := ∅ |}]> sessions)
  \/ (startsWith response (u "END ") = true
      /\ exists s, sessions !! sessionId req = Some s
           /\ (sessions' = delete_property (sessionId req) sessions
               \/ sessions'
                  = delete_property (sessionId req)
                      (<[sessionId req := {| flow := flow s; data := ∅ |}]> sessions))).

(** The two flows that call the text service. *)
Definition analysisFlows : list jsstring := [u "symptoms_input"; u "zone_problem_input"].

(** The calls of one request to the text service: none, or one, made with
    the client, for a stored session in an analysis flow. *)
Definition serviceCalls (req : request) (sessions : gmap jsstring session) (g : list event)
  : Prop :=
  g = [] \/
  exists client r s,
    ai = Some client /\ g = [GenerateContent r]
    /\ sessions !! sessionId req = Some s /\ In (flow s) analysisFlows.

(** The calls of one request to the SMS provider: none, or one, made with
    the client, to the phone number of the request when it matches the
    pattern, from the number of the server, with a body that is not
    empty. *)
Definition providerCalls (req : request) (p : list event) : Prop :=
  p = [] \/
  exists client to body,
    twilioClient = Some client /\ phoneNumber req = Some to /\ E164_test to = true
    /\ body <> []
    /\ p = [MessagesCreate {| msg_body := body; msg_from := TWILIO_PHONE_NUMBER;
                              msg_to := to |}].

(** The requests the two helpers hand to the text service. *)
Definition malariaRequest (symptoms : jsstring) : generate_request :=
  {| model := u "gemini-1.5-flash-latest"; contents := malariaPrompt symptoms;
     temperature_tenths := 7; maxOutputTokens := 60 |}.

Definition zoneRequest (problem : jsstring) : generate_request :=
  {| model := u "gemini-1.5-flash-latest"; contents := zonePrompt problem;
     temperature_tenths := 5; maxOutputTokens := 80 |}.

(** The main menu: the tokens that continue the dialog, each with the flow
    it leads to. *)
Definition menuTargets : list (jsstring * jsstring) :=
  [ (u "1", u "zones_risk_level_selection");
    (u "2", u "reports_municipality_selection");
    (u "3", u "symptoms_input");
    (u "4", u "zone_problem_input");
    (u "5", u "health_tips_menu") ].

(** The submenus, each with its token for the main menu. *)
Definition backTokens : list (jsstring * jsstring) :=
  [ (u "zones_risk_level_selection", u "5");
    (u "reports_municipality_selection", u "6");
    (u "health_tips_menu", u "4") ].

(** The flows the handler knows. *)
Definition knownFlows : list jsstring := u "initial" :: liveFlows.

(** The two copies of the simulated list of reports, as the [forEach]
    builds them, the tokens that select a municipality, and what the
    reports branch does once one is selected. *)
Definition reportsUssdText : jsstring :=
  u "Reportagens (Simulado):" ++ nl ++ u "1. Falta de Água (Alto)" ++ nl
    ++ u "2. Lixo na Via (Médio)" ++ nl ++ u "3. Poste Caído (Alto)".

Definition reportsSmsText : jsstring :=
  u "Reportagens (MapaZZZ):" ++ nl ++ u "1. Falta de Água (Alto)" ++ nl
    ++ u "2. Lixo na Via (Médio)" ++ nl ++ u "3. Poste Caído (Alto)".

Definition municipalityTokens : list jsstring := [u "1"; u "2"; u "3"; u "4"; u "5"].

Definition reportsReply (k : jsstring) (to : option jsstring) : M jsstring :=
  smsConfirmation ← sendTwilioSms to reportsSmsText;
  delete_session k;;
  mret (u "END " ++ reportsUssdText ++ nl ++ smsConfirmation).

(** The health tips, each with its token. *)
Definition healthTips : list (jsstring * jsstring) :=
  [ (u "1", u "Malária: Use mosquiteiro, elimine água parada, procure médico aos primeiros sintomas.");
    (u "2", u "Saneamento: Mantenha quintal limpo, lixo no lugar certo, lave as mãos. Saúde!");
    (u "3", u "1os Socorros: Queimadura leve? Água fria. Cortes? Limpe e cubra. Grave? Ajuda médica!") ].

(** The inputs the handler refuses, by flow, each with the response: a
    token that is no option of a menu, and a description that is blank. *)
Inductive refused (f tok : jsstring) : jsstring -> Prop :=
| refused_menu :
    f = u "menu" ->
    ~ In tok [[]; u "1"; u "2"; u "3"; u "4"; u "5"; u "6"] ->
    refused f tok (u "END Seleção inválida.")
| refused_zones :
    f = u "zones_risk_level_selection" ->
    ~ In tok [[]; u "1"; u "2"; u "3"; u "4"; u "5"] ->
    refused f tok (u "END Seleção inválida para Zonas.")
| refused_reports :
    f = u "reports_municipality_selection" ->
    ~ In tok [[]; u "1"; u "2"; u "3"; u "4"; u "5"; u "6"] ->
    refused f tok (u "END Seleção inválida para Reportagens.")
| refused_health :
    f = u "health_tips_menu" ->
    ~ In tok [[]; u "1"; u "2"; u "3"; u "4"] ->
    refused f tok (u "END Seleção inválida.")
| refused_symptoms :
    f = u "symptoms_input" ->
    tok <> [] -> trim tok = [] ->
    refused f tok (u "END Por favor, forneça uma descrição dos sintomas. Tente novamente.")
| refused_problem :
    f = u "zone_problem_input" ->
    tok <> [] -> trim tok = [] ->
    refused f tok (u "END Por favor, forneça uma descrição do problema. Tente novamente.").

(** A dialog: the requests of a list handled one after the other, each on
    the store the one before it left; the responses, in order, and the
    store at the end. *)
Fixpoint dialog (reqs : list request) (sessions : gmap jsstring session)
  : list jsstring * gmap jsstring session :=
  match reqs with
  | [] => ([], sessions)
  | req :: rest =>
    match run (handler req) sessions with
    | (Ret response, sessions', _) =>
      let '(responses, sessions'') := dialog rest sessions' in
      (response :: responses, sessions'')
    | (Throw _, sessions', _) => ([], sessions')
    end
  end.

(** ** Properties *)

(** *** The SMS helper *)

(** The helper returns, whatever the provider does, and leaves the store
    alone. *)
Lemma sendTwilioSms_returns (to : option jsstring) (body : jsstring) (sessions : gmap jsstring session) :
  exists confirmation t, run (sendTwilioSms to body) sessions = (Ret confirmation, sessions, t).
Proof.
  unfold run, sendTwilioSms. destruct twilioClient as [client|]; [|eexists _, _; reflexivity].
  destruct (negb (truthy to) || negb (truthy (Some body))); [eexists _, _; reflexivity|].
  destruct (negb (E164_test (or_else to []))); [eexists _, _; reflexivity|].
  unfold try_catch, mbind, M_bind, messages_create.
  destruct (client _) as [sid | code message]; [eexists _, _; reflexivity|].
  repeat match goal with
         | |- context [if ?b then _ else _] => destruct b
         end; eexists _, _; reflexivity.
Qed.

(** C6, as the code has it: a [to] that does not match the pattern is never
    handed to the provider; the message returned is the one of the first
    check that fails. *)
Theorem sendTwilioSms_rejects (to : option jsstring) (body : jsstring) (sessions : gmap jsstring session) :
  (forall s, to = Some s -> E164_test s = false) ->
  run (sendTwilioSms to body) sessions =
    (Ret match twilioClient with
         | None => smsUnavailable
         | Some _ =>
           if negb (truthy to) || negb (truthy (Some body)) then smsMissing
           else smsInvalid (or_else to [])
         end, sessions, []).
Proof.
  intros Hto. unfold run, sendTwilioSms. destruct twilioClient as [client|]; [|reflexivity].
  destruct (negb (truthy to) || negb (truthy (Some body))) eqn:Hblank; [reflexivity|].
  destruct to as [[|c r]|]; try discriminate Hblank.
  change (or_else (Some (c :: r)) []) with (c :: r).
  rewrite (Hto (c :: r) eq_refl). reflexivity.
Qed.

(** *** The Gemini helpers *)

(** C9: without a client both helpers return the same non-empty message,
    for every description, and make no call. *)
Theorem gemini_uninitialised (d : option jsstring) (sessions : gmap jsstring session) :
  ai = None ->
  run (getMalariaProbabilityJS d) sessions = (Ret aiUnavailable, sessions, [])
  /\ run (getZoneSolutionJS d) sessions = (Ret aiUnavailable, sessions, [])
  /\ (0 < length aiUnavailable)%nat.
Proof.
  intros Hai. unfold run, getMalariaProbabilityJS, getZoneSolutionJS. rewrite Hai.
  repeat split. vm_compute. lia.
Qed.

(** *** The formatters *)

(** A [forEach] that appends one piece per element appends the pieces in
    order. *)
Lemma forEach_from_append {A} (g : nat -> A -> jsstring) (l : list A) (k : nat) (acc : jsstring) :
  forEach_from (fun acc x index => acc ++ g index x) l k acc
  = acc ++ concat (imap (fun i => g (k + i)%nat) l).
Proof.
  revert k acc. induction l as [|x l' IH]; intros k acc; simpl.
  - symmetry. apply app_nil_r.
  - rewrite IH, <- app_assoc, Nat.add_0_r. do 3 f_equal.
    apply imap_ext. intros i y _. simpl. f_equal. lia.
Qed.

Lemma forEach_append {A} (g : nat -> A -> jsstring) (l : list A) (acc : jsstring) :
  forEach (fun acc x index => acc ++ g index x) l acc = acc ++ concat (imap g l).
Proof. unfold forEach. rewrite forEach_from_append. reflexivity. Qed.

Lemma formatZonesForUSSD_listing (z : zone) (zones : list zone) (f : option jsstring) :
  filterZones (z :: zones) f <> [] ->
  formatZonesForUSSD (Some (z :: zones)) f
  = zonesListing f (take MAX_ZONES_TO_SHOW (filterZones (z :: zones) f))
      (length (drop MAX_ZONES_TO_SHOW (filterZones (z :: zones) f))).
Proof.
  intros Hne. unfold formatZonesForUSSD, zonesListing, slice0.
  set (F := filterZones (z :: zones) f) in *.
  destruct F as [|z0 F0] eqn:EF; [contradiction|]. rewrite <- EF.
  replace (length F =? 0)%nat with false by (rewrite EF; reflexivity).
  rewrite forEach_append, length_take, length_drop.
  destruct (Nat.ltb_spec (MAX_ZONES_TO_SHOW `min` length F) (length F)) as [Hlt | Hge].
  - replace (0 <? length F - MAX_ZONES_TO_SHOW)%nat with true
      by (symmetry; apply Nat.ltb_lt; lia).
    replace (length F - MAX_ZONES_TO_SHOW `min` length F)%nat
      with (length F - MAX_ZONES_TO_SHOW)%nat by lia.
    rewrite <- !app_assoc. reflexivity.
  - replace (0 <? length F - MAX_ZONES_TO_SHOW)%nat with false
      by (symmetry; apply Nat.ltb_ge; lia).
    rewrite app_nil_r. reflexivity.
Qed.

Lemma formatReportsForUSSD_listing (reports : list report) (g : option jsstring) (r : report) (rest : list report) :
  filterReports reports g = r :: rest ->
  formatReportsForUSSD (Some reports) g = reportsListing g [r] (length rest).
Proof.
  intros EF. unfold formatReportsForUSSD, reportsListing, slice0.
  destruct reports as [|r0 reports0].
  - exfalso. unfold filterReports in EF. destruct g as [g|]; [|discriminate EF].
    destruct (isSpecificMunicipality (Some g)); discriminate EF.
  - rewrite EF.
    cbn [length Nat.eqb andb firstn forEach forEach_from concat map Nat.ltb Nat.leb Nat.sub].
    rewrite take_0. cbn [length forEach_from Nat.ltb Nat.leb Nat.sub].
    destruct rest as [|r1 rest1]; cbn [length Nat.ltb Nat.leb];
      rewrite ?app_nil_r, <- ?app_assoc; reflexivity.
Qed.

(** C8: whatever the input list and the filter, the text of
    [formatZonesForUSSD] lists at most 5 zones and the text of
    [formatReportsForUSSD] at most 1 report. *)
Theorem listings_bounded (zones : option (list zone)) (f : option jsstring)
    (reports : option (list report)) (g : option jsstring) :
  (formatZonesForUSSD zones f = noZonesMessage f
   \/ exists shown rest,
        filterZones (default [] zones) f = shown ++ rest
        /\ (length shown <= 5)%nat
        /\ formatZonesForUSSD zones f = zonesListing f shown (length rest))
  /\
  (formatReportsForUSSD reports g = noReportsMessage g
   \/ formatReportsForUSSD reports g = noReportsFor g
   \/ exists shown rest,
        filterReports (default [] reports) g = shown ++ rest
        /\ (length shown <= 1)%nat
        /\ formatReportsForUSSD reports g = reportsListing g shown (length rest)).
Proof.
  split.
  - destruct zones as [[|z zones]|]; try (left; reflexivity).
    destruct (filterZones (z :: zones) f) as [|z0 F0] eqn:EF.
    + left. unfold formatZonesForUSSD. rewrite EF. reflexivity.
    + right. exists (take MAX_ZONES_TO_SHOW (z0 :: F0)), (drop MAX_ZONES_TO_SHOW (z0 :: F0)).
      split; [simpl default; rewrite EF; symmetry; apply take_drop|].
      split; [rewrite length_take; unfold MAX_ZONES_TO_SHOW; lia|].
      rewrite <- EF. apply formatZonesForUSSD_listing. rewrite EF. discriminate.
  - destruct reports as [[|r reports]|]; try (left; reflexivity).
    destruct (filterReports (r :: reports) g) as [|r0 F0] eqn:EF.
    + destruct (isSpecificMunicipality g) eqn:Eg.
      * right. left. unfold formatReportsForUSSD. rewrite EF, Eg. reflexivity.
      * unfold filterReports in EF. rewrite Eg in EF. destruct g; discriminate EF.
    + right. right. exists [r0], F0. split; [exact EF|]. split; [simpl; lia|].
      apply formatReportsForUSSD_listing. exact EF.
Qed.

(** C7, as the code has it: a description of more than 70 characters is
    displayed as its first 67 characters followed by three dots, in the
    line of the one report the text lists. *)
Theorem description_truncated (reports : list report) (g : option jsstring)
    (r : report) (rest : list report) (d : jsstring) :
  filterReports reports g = r :: rest ->
  description r = Some d ->
  (70 < length d)%nat ->
  displayDescription r = take 67 d ++ u "..."
  /\ report_line r = or_else (title r) (u "N/A") ++ u ": " ++ (take 67 d ++ u "...")
                       ++ u " (Risco: " ++ num_or_ND (report_riskLevel r) ++ u ")" ++ nl
  /\ formatReportsForUSSD (Some reports) g = reportsListing g [r] (length rest).
Proof.
  intros EF Hd Hlen.
  assert (Hdisp : displayDescription r = take 67 d ++ u "...").
  { unfold displayDescription, substring0. rewrite Hd.
    destruct d as [|c d']; [simpl in Hlen; lia|]. simpl or_else.
    replace (70 <? length (c :: d'))%nat with true by (symmetry; apply Nat.ltb_lt; exact Hlen).
    reflexivity. }
  split; [exact Hdisp|]. split.
  - unfold report_line. rewrite Hdisp. reflexivity.
  - apply formatReportsForUSSD_listing. exact EF.
Qed.

(** A description of 1 to 70 characters is displayed as it is. *)
Lemma description_kept (r : report) (d : jsstring) :
  description r = Some d -> (0 < length d <= 70)%nat -> displayDescription r = d.
Proof.
  intros Hd Hlen. unfold displayDescription. rewrite Hd.
  destruct d as [|c d']; [simpl in Hlen; lia|]. simpl or_else.
  replace (70 <? length (c :: d'))%nat with false by (symmetry; apply Nat.ltb_ge; lia).
  reflexivity.
Qed.

(** *** The handler *)

Lemma str_eqb_eq (a b : jsstring) : (a === b) = true <-> a = b.
Proof. unfold str_eqb. apply bool_decide_eq_true. Qed.

Lemma str_eqb_neq (a b : jsstring) : (a === b) = false <-> a <> b.
Proof. unfold str_eqb. apply bool_decide_eq_false. Qed.

Ltac unfold_M :=
  unfold run, mbind, M_bind, mret, M_ret, get_sessions, set_session, delete_session,
    set_data, set_flow.

Lemma wp_ret {A} (a : A) (Q : A -> gmap jsstring session -> list event -> Prop) (sessions : gmap jsstring session) : Q a sessions [] -> wp (mret a) Q sessions.
Proof. intros H. exists a, sessions, []. split; [reflexivity | exact H]. Qed.

Lemma wp_bind {A B} (m : M A) (k : A -> M B)
    (Q : B -> gmap jsstring session -> list event -> Prop) (sessions : gmap jsstring session) :
  wp m (fun a sessions' t => wp (k a) (fun b sessions'' t' => Q b sessions'' (t ++ t')) sessions')
     sessions ->
  wp (m ≫= k) Q sessions.
Proof.
  intros (a & s1 & t1 & Hm & b & s2 & t2 & Hk & HQ).
  exists b, s2, (t1 ++ t2). split; [|exact HQ].
  unfold run, mbind, M_bind in *. rewrite Hm, Hk. reflexivity.
Qed.

Lemma wp_if {A} (c : bool) (m1 m2 : M A)
    (Q : A -> gmap jsstring session -> list event -> Prop) (sessions : gmap jsstring session) :
  (c = true -> wp m1 Q sessions) -> (c = false -> wp m2 Q sessions) ->
  wp (if c then m1 else m2) Q sessions.
Proof. destruct c; auto. Qed.

Lemma wp_get_sessions (Q : gmap jsstring session -> gmap jsstring session -> list event -> Prop)
    (sessions : gmap jsstring session) : Q sessions sessions [] -> wp get_sessions Q sessions.
Proof. intros H. exists sessions, sessions, []. split; [reflexivity | exact H]. Qed.

Lemma wp_set_session (k : jsstring) (v : session) (Q : unit -> gmap jsstring session -> list event -> Prop)
    (sessions : gmap jsstring session) :
  Q tt (<[k := v]> sessions) [] -> wp (set_session k v) Q sessions.
Proof. intros H. exists tt, (<[k := v]> sessions), []. split; [reflexivity | exact H]. Qed.

Lemma wp_delete_session (k : jsstring) (Q : unit -> gmap jsstring session -> list event -> Prop)
    (sessions : gmap jsstring session) :
  Q tt (delete_property k sessions) [] -> wp (delete_session k) Q sessions.
Proof. intros H. exists tt, (delete_property k sessions), []. split; [reflexivity | exact H]. Qed.

(** [delete] removes the session of every key but [__proto__], and leaves
    the sessions of the other keys alone. *)
Lemma delete_property_ne (k : jsstring) (sessions : gmap jsstring session) :
  k <> u "__proto__" -> delete_property k sessions = delete k sessions.
Proof. intros Hk. unfold delete_property. apply str_eqb_neq in Hk. rewrite Hk. reflexivity. Qed.

Lemma delete_property_proto (k : jsstring) (sessions : gmap jsstring session) :
  k = u "__proto__" -> delete_property k sessions = sessions.
Proof. intros Hk. unfold delete_property. apply str_eqb_eq in Hk. rewrite Hk. reflexivity. Qed.

Lemma lookup_delete_property_ne (k k' : jsstring) (sessions : gmap jsstring session) :
  k' <> k -> delete_property k sessions !! k' = sessions !! k'.
Proof.
  intros Hk. unfold delete_property. destruct (k === u "__proto__"); [reflexivity|].
  apply lookup_delete_ne. congruence.
Qed.

Lemma wp_set_data (k : jsstring) (d : gmap jsstring jsstring) (s : session) (Q : unit -> gmap jsstring session -> list event -> Prop)
    (sessions : gmap jsstring session) :
  sessions !! k = Some s ->
  Q tt (<[k := {| flow := flow s; data := d |}]> sessions) [] ->
  wp (set_data k d) Q sessions.
Proof.
  intros Hs H. eexists tt, _, []. split; [|exact H].
  unfold run, set_data. rewrite Hs. reflexivity.
Qed.

Lemma wp_set_flow (k f : jsstring) (s : session) (Q : unit -> gmap jsstring session -> list event -> Prop)
    (sessions : gmap jsstring session) :
  sessions !! k = Some s ->
  Q tt (<[k := {| flow := f; data := data s |}]> sessions) [] ->
  wp (set_flow k f) Q sessions.
Proof.
  intros Hs H. eexists tt, _, []. split; [|exact H].
  unfold run, set_flow. rewrite Hs. reflexivity.
Qed.

Lemma wp_sendTwilioSms (to : option jsstring) (body : jsstring) (Q : jsstring -> gmap jsstring session -> list event -> Prop)
    (sessions : gmap jsstring session) :
  (forall confirmation t,
     run (sendTwilioSms to body) sessions = (Ret confirmation, sessions, t) ->
     Q confirmation sessions t) ->
  wp (sendTwilioSms to body) Q sessions.
Proof.
  intros H. destruct (sendTwilioSms_returns to body sessions) as (c & t & Hrun).
  exists c, sessions, t. split; [exact Hrun | apply H; exact Hrun].
Qed.

(** Both Gemini helpers return, whatever the service does, leave the store
    alone, and make no call to the SMS provider. *)
Lemma getMalariaProbabilityJS_returns (d : option jsstring) (sessions : gmap jsstring session) :
  exists result t, run (getMalariaProbabilityJS d) sessions = (Ret result, sessions, t)
    /\ existsb is_sms t = false.
Proof.
  unfold run, getMalariaProbabilityJS. destruct ai as [client|]; [|eexists _, _; split; reflexivity].
  destruct (_ || _); [eexists _, _; split; reflexivity|].
  unfold try_catch, mbind, M_bind, generateContent.
  destruct (client _) as [result|]; eexists _, _; split; reflexivity.
Qed.

Lemma getZoneSolutionJS_returns (d : option jsstring) (sessions : gmap jsstring session) :
  exists result t, run (getZoneSolutionJS d) sessions = (Ret result, sessions, t)
    /\ existsb is_sms t = false.
Proof.
  unfold run, getZoneSolutionJS. destruct ai as [client|]; [|eexists _, _; split; reflexivity].
  destruct (_ || _); [eexists _, _; split; reflexivity|].
  unfold try_catch, mbind, M_bind, generateContent.
  destruct (client _) as [result|]; eexists _, _; split; reflexivity.
Qed.

Lemma wp_getMalariaProbabilityJS (d : option jsstring) (Q : jsstring -> gmap jsstring session -> list event -> Prop)
    (sessions : gmap jsstring session) :
  (forall result t,
     run (getMalariaProbabilityJS d) sessions = (Ret result, sessions, t) ->
     existsb is_sms t = false ->
     Q result sessions t) ->
  wp (getMalariaProbabilityJS d) Q sessions.
Proof.
  intros H. destruct (getMalariaProbabilityJS_returns d sessions) as (r & t & Hrun & Ht).
  exists r, sessions, t. split; [exact Hrun | apply H; assumption].
Qed.

Lemma wp_getZoneSolutionJS (d : option jsstring) (Q : jsstring -> gmap jsstring session -> list event -> Prop)
    (sessions : gmap jsstring session) :
  (forall result t,
     run (getZoneSolutionJS d) sessions = (Ret result, sessions, t) ->
     existsb is_sms t = false ->
     Q result sessions t) ->
  wp (getZoneSolutionJS d) Q sessions.
Proof.
  intros H. destruct (getZoneSolutionJS_returns d sessions) as (r & t & Hrun & Ht).
  exists r, sessions, t. split; [exact Hrun | apply H; assumption].
Qed.

(** Decide the comparisons of two known strings. *)
Ltac decide_test a b :=
  let v := eval vm_compute in (str_eqb a b) in
  lazymatch v with
  | true => change (str_eqb a b) with true
  | false => change (str_eqb a b) with false
  end.

Ltac decide_tests :=
  repeat match goal with
         | |- context [truthy (Some (u ?a))] =>
           let v := eval vm_compute in (truthy (Some (u a))) in
           change (truthy (Some (u a))) with v
         | |- context [str_eqb (u ?a) (u ?b)] => decide_test (u a) (u b)
         | |- context [str_eqb (u ?a) []] => decide_test (u a) (@nil N)
         | |- context [str_eqb [] (u ?b)] => decide_test (@nil N) (u b)
         | |- context [str_eqb [] []] => decide_test (@nil N) (@nil N)
         end.

(** C3: with an empty last token and a stored flow that is neither
    [initial] nor [menu], the handler stores a fresh [menu] session with
    empty data and answers with the main menu, a [CON] response. *)
Theorem empty_input_recovers (req : request) (sessions : gmap jsstring session) (s : session) :
  sessions !! sessionId req = Some s ->
  flow s <> u "initial" ->
  flow s <> u "menu" ->
  lastInput_of (text req) = [] ->
  run (handler req) sessions
    = (Ret mainMenu, <[sessionId req := menu_session]> sessions, [])
  /\ startsWith mainMenu (u "CON") = true.
Proof.
  intros Hs Hi Hm Hin. split; [|reflexivity].
  unfold handler. unfold_M. rewrite Hs, Hin.
  destruct (truthy (Some (flow s))) eqn:Ht; cbn [negb].
  - apply str_eqb_neq in Hi, Hm. rewrite Hi, Hm. reflexivity.
  - cbn [flow initial_session]. decide_tests. cbn [negb andb orb app].
    rewrite insert_insert_eq. reflexivity.
Qed.

(** Symbolic execution of a computation, one construct at a time. *)
Ltac wp_step :=
  cbv beta iota zeta; cbn [flow data initial_session menu_session negb andb orb fst snd];
  decide_tests; cbn [negb andb orb]; cbv beta iota;
  lazymatch goal with
  | |- wp (mret _) _ _ => apply wp_ret
  | |- wp (mbind _ _) _ _ => apply wp_bind
  | |- wp (if _ then _ else _) _ _ =>
    apply wp_if;
    let H := fresh "Htest" in
    intros H; try (rewrite ?andb_false_r in H; discriminate H)
  | |- wp get_sessions _ _ => apply wp_get_sessions
  | |- wp (set_session _ _) _ _ => apply wp_set_session
  | |- wp (delete_session _) _ _ => apply wp_delete_session
  | |- wp (set_data _ _) _ _ =>
    eapply wp_set_data; [first [eassumption | apply lookup_insert_eq]|]
  | |- wp (set_flow _ _) _ _ =>
    eapply wp_set_flow; [first [eassumption | apply lookup_insert_eq]|]
  | |- wp (sendTwilioSms _ _) _ _ =>
    apply wp_sendTwilioSms;
    let c := fresh "confirmation" in let t := fresh "t" in let H := fresh "Hsms" in
    intros c t H
  | |- wp (getMalariaProbabilityJS _) _ _ =>
    apply wp_getMalariaProbabilityJS;
    let r := fresh "analysisResult" in let t := fresh "t" in
    let H := fresh "Hai" in let H' := fresh "Hnosms" in
    intros r t H H'
  | |- wp (getZoneSolutionJS _) _ _ =>
    apply wp_getZoneSolutionJS;
    let r := fresh "solutionResult" in let t := fresh "t" in
    let H := fresh "Hai" in let H' := fresh "Hnosms" in
    intros r t H H'
  | |- wp (match ?x with Some _ => _ | None => _ end) _ _ =>
    first [ match goal with E : x = _ |- _ => rewrite E end
          | let H := fresh "Hsession" in destruct x eqn:H ]
  | |- wp (let (_, _) := ?p in _) _ _ => destruct p
  end.

Ltac wp_run := repeat wp_step.

(** The handler never throws. *)
Lemma handler_returns (req : request) (sessions : gmap jsstring session) :
  exists response sessions' t, run (handler req) sessions = (Ret response, sessions', t).
Proof.
  assert (H : wp (handler req) (fun _ _ _ => True) sessions)
    by (unfold handler; wp_run; exact I).
  destruct H as (r & sessions' & t & Hrun & _).
  exists r, sessions', t. exact Hrun.
Qed.

(** *** The zones branch *)

Lemma zones_forEach :
  forEach
    (fun acc zone index =>
       add_item (length sampleZones) acc index (sim_location zone) (sim_risk zone))
    sampleZones
    (u "Zonas (Simulado):" ++ nl, u "Zonas Risco (MapaZZZ):" ++ nl)
  = (zonesUssdText ++ nl, zonesSmsText).
Proof. vm_compute. reflexivity. Qed.

Lemma trim_zonesUssdText : trim (zonesUssdText ++ nl) = zonesUssdText.
Proof. vm_compute. reflexivity. Qed.

Lemma wp_run_eq {A} (m : M A) (sessions : gmap jsstring session)
    (r : outcome A * gmap jsstring session * list event) :
  wp m (fun a sessions' t => r = (Ret a, sessions', t)) sessions -> run m sessions = r.
Proof. intros (a & s1 & t & Hrun & ->). exact Hrun. Qed.

Lemma zones_branch (req : request) (sessions : gmap jsstring session) (s : session) :
  sessions !! sessionId req = Some s ->
  flow s = u "zones_risk_level_selection" ->
  In (lastInput_of (text req)) riskLevelTokens ->
  run (handler req) sessions = run (zonesReply (sessionId req) (phoneNumber req)) sessions.
Proof.
  intros Hs Hf Htok. apply wp_run_eq.
  unfold handler. rewrite zones_forEach.
  destruct Htok as [<- | [<- | [<- | [<- | []]]]].
  all: destruct s as [f d]; cbn [flow] in Hf; subst f; wp_run.
  all: rewrite trim_zonesUssdText; unfold zonesReply; unfold_M; unfold run in Hsms;
    rewrite Hsms; cbn [app]; rewrite ?app_nil_r; reflexivity.
Qed.

(** C2, as the code has it: on a token from 1 to 4 the zones branch hands
    the SMS copy of the simulated list, whole, to the SMS helper and
    answers [END] with the USSD copy of the list, whole, followed by the
    message of the helper. The store is left as [delete sessions[sessionId]]
    leaves it. *)
Theorem zones_selection_reply (req : request) (sessions : gmap jsstring session) (s : session) :
  sessions !! sessionId req = Some s ->
  flow s = u "zones_risk_level_selection" ->
  In (lastInput_of (text req)) riskLevelTokens ->
  exists smsConfirmation t,
    run (sendTwilioSms (phoneNumber req) zonesSmsText) sessions
      = (Ret smsConfirmation, sessions, t)
    /\ run (handler req) sessions
      = (Ret (u "END " ++ zonesUssdText ++ nl ++ smsConfirmation),
         delete_property (sessionId req) sessions, t).
Proof.
  intros Hs Hf Htok. rewrite (zones_branch req sessions s Hs Hf Htok).
  destruct (sendTwilioSms_returns (phoneNumber req) zonesSmsText sessions) as (c & t & Hsms).
  exists c, t. split; [exact Hsms|].
  unfold zonesReply. unfold_M. unfold run in Hsms. rewrite Hsms.
  cbn [app]. rewrite ?app_nil_r. reflexivity.
Qed.

(** C10: in the zones branch two requests of one session and one phone
    number whose tokens are any of 1 to 4 get the same response, leave the
    same store and make the same calls: both run [zonesReply], which knows
    nothing of the token. *)
Theorem zones_level_has_no_influence (req1 req2 : request) (sessions : gmap jsstring session)
    (s : session) :
  sessions !! sessionId req1 = Some s ->
  flow s = u "zones_risk_level_selection" ->
  sessionId req2 = sessionId req1 ->
  phoneNumber req2 = phoneNumber req1 ->
  In (lastInput_of (text req1)) riskLevelTokens ->
  In (lastInput_of (text req2)) riskLevelTokens ->
  run (handler req1) sessions = run (handler req2) sessions
  /\ run (handler req1) sessions
     = run (zonesReply (sessionId req1) (phoneNumber req1)) sessions.
Proof.
  intros Hs Hf Hk Hp Htok1 Htok2.
  assert (Hs2 : sessions !! sessionId req2 = Some s) by (rewrite Hk; exact Hs).
  rewrite (zones_branch req1 sessions s Hs Hf Htok1).
  rewrite (zones_branch req2 sessions s Hs2 Hf Htok2), Hk, Hp.
  split; reflexivity.
Qed.

(** *** The two analysis branches *)

Lemma wp_run_outcome {A} (m : M A) (sessions : gmap jsstring session)
    (P : outcome A * gmap jsstring session * list event -> Prop) :
  wp m (fun a sessions' t => P (Ret a, sessions', t)) sessions -> P (run m sessions).
Proof. intros (a & s1 & t & -> & HP). exact HP. Qed.

Lemma hasMarker_3 (m1 m2 m3 result : jsstring) :
  hasMarker [m1; m2; m3] result = includes result m1 || includes result m2 || includes result m3.
Proof. unfold hasMarker. cbn [existsb]. rewrite orb_false_r, orb_assoc. reflexivity. Qed.

(** C5, as the code has it: on a token that is not blank, each analysis
    branch calls its helper; when the result holds a failure marker the
    response is [END] and the result alone, and the SMS provider is not
    called; otherwise the handler hands the result to the SMS helper and
    the response is [END], the result and the message of the SMS helper. In
    both cases the store is left as [delete sessions[sessionId]] leaves
    it. *)
Theorem analysis_reply (req : request) (sessions : gmap jsstring session) (s : session)
    (tok : jsstring) :
  sessions !! sessionId req = Some s ->
  lastInput_of (text req) = tok ->
  trim tok <> [] ->
  (flow s = u "symptoms_input" ->
   analysisOutcome (getMalariaProbabilityJS (Some tok)) symptomsFailureMarkers
     (u "Resultado da sua análise de sintomas (USSD MapaZZZ): ") (u "END Análise: ")
     req sessions (run (handler req) sessions))
  /\
  (flow s = u "zone_problem_input" ->
   analysisOutcome (getZoneSolutionJS (Some tok)) zoneFailureMarkers
     (u "Sugestão para o problema na sua zona (USSD MapaZZZ): ") (u "END Sugestão: ")
     req sessions (run (handler req) sessions)).
Proof.
  intros Hs Htok Hnb.
  assert (Hne : (tok === []) = false).
  { apply str_eqb_neq. intros ->. apply Hnb. reflexivity. }
  apply str_eqb_neq in Hnb.
  assert (Htr : truthy (Some tok) = true).
  { destruct tok; [discriminate Hne | reflexivity]. }
  split; intros Hf; apply wp_run_outcome; unfold handler;
    rewrite Htok, Hne, Hnb, Htr; destruct s as [f d]; cbn [flow] in Hf; subst f; wp_run.
  all: cbn [app]; rewrite ?app_nil_r; eexists _, _; split; [exact Hai|];
    split; [exact Hnosms|];
    unfold symptomsFailureMarkers, zoneFailureMarkers; rewrite hasMarker_3, Htest;
    first [ reflexivity | eexists _, _; split; [eassumption | reflexivity] ].
Qed.

(** *** The store and the response of every request *)

Lemma handler_effect (req : request) (sessions : gmap jsstring session) :
  wp (handler req) (fun response sessions' _ => storeEffect req sessions response sessions')
     sessions.
Proof.
  unfold handler. wp_run.
  all: unfold storeEffect; cbn [data]; rewrite ?insert_insert_eq.
  all: first
    [ right; split; [vm_compute; reflexivity|];
      eexists; split; [eassumption|];
      first [left; reflexivity | right; reflexivity]
    | left; split; [vm_compute; reflexivity|];
      eexists; split; [|reflexivity];
      vm_compute; repeat first [left; reflexivity | right] ].
Qed.

Lemma handler_effect_run (req : request) (sessions sessions' : gmap jsstring session)
    (response : jsstring) (t : list event) :
  run (handler req) sessions = (Ret response, sessions', t) ->
  storeEffect req sessions response sessions'.
Proof.
  intros Hrun. destruct (handler_effect req sessions) as (r & s1 & t1 & Hrun' & H).
  rewrite Hrun in Hrun'. injection Hrun' as <- <- <-. exact H.
Qed.

Lemma not_END_and_CON (r : jsstring) :
  startsWith r (u "END ") = true -> startsWith r (u "CON") = true -> False.
Proof.
  destruct r as [|c r']; [vm_compute; discriminate|].
  change (u "END ") with (69 :: u "ND "). change (u "CON") with (67 :: u "ON").
  cbn [startsWith]. rewrite !andb_true_iff, !N.eqb_eq.
  intros [H1 _] [H2 _]. rewrite <- H1 in H2. discriminate H2.
Qed.

(** X1: the handler always answers, and its response begins with [CON ]
    or with [END ]. *)
Theorem response_is_CON_or_END (req : request) (sessions : gmap jsstring session) :
  exists response sessions' t,
    run (handler req) sessions = (Ret response, sessions', t)
    /\ (startsWith response (u "CON ") = true \/ startsWith response (u "END ") = true).
Proof.
  destruct (handler_effect req sessions) as (r & s1 & t1 & Hrun & H).
  exists r, s1, t1. split; [exact Hrun|].
  destruct H as [[H _] | [H _]]; [left | right]; exact H.
Qed.

(** X2: after a response that begins with [CON] the session of the request
    is in the store, in one of the six flows a dialog continues in, with
    empty data. *)
Theorem CON_keeps_session (req : request) (sessions sessions' : gmap jsstring session)
    (response : jsstring) (t : list event) :
  run (handler req) sessions = (Ret response, sessions', t) ->
  startsWith response (u "CON") = true ->
  exists f, In f liveFlows
    /\ sessions' !! sessionId req = Some {| flow := f; data := ∅ |}.
Proof.
  intros Hrun Hcon.
  destruct (handler_effect_run req sessions sessions' response t Hrun)
    as [[_ (f & Hf & ->)] | [Hend _]].
  - exists f. split; [exact Hf | apply lookup_insert_eq].
  - destruct (not_END_and_CON response Hend Hcon).
Qed.

(** X3: a request leaves the sessions of the other keys as they are. *)
Theorem handler_frame (req : request) (sessions sessions' : gmap jsstring session)
    (response : jsstring) (t : list event) (k : jsstring) :
  run (handler req) sessions = (Ret response, sessions', t) ->
  k <> sessionId req ->
  sessions' !! k = sessions !! k.
Proof.
  intros Hrun Hk.
  destruct (handler_effect_run req sessions sessions' response t Hrun)
    as [[_ (f & _ & ->)] | [_ (s & _ & [-> | ->])]].
  - apply lookup_insert_ne. congruence.
  - apply lookup_delete_property_ne. exact Hk.
  - rewrite lookup_delete_property_ne by exact Hk. apply lookup_insert_ne. congruence.
Qed.

Lemma not_CON_and_END (r : jsstring) :
  startsWith r (u "CON ") = true -> startsWith r (u "END") = true -> False.
Proof.
  destruct r as [|c r']; [vm_compute; discriminate|].
  change (u "CON ") with (67 :: u "ON "). change (u "END") with (69 :: u "ND").
  cbn [startsWith]. rewrite !andb_true_iff, !N.eqb_eq.
  intros [H1 _] [H2 _]. rewrite <- H1 in H2. discriminate H2.
Qed.

(** X29: when the response begins with [END], the session key of the
    request is absent from the store the handler leaves, for every key but
    [__proto__]; under [__proto__] the session was in the store and is
    still there, in the flow it had. *)
Theorem END_deletes_own_session (req : request) (sessions sessions' : gmap jsstring session)
    (response : jsstring) (t : list event) :
  run (handler req) sessions = (Ret response, sessions', t) ->
  startsWith response (u "END") = true ->
  (sessionId req <> u "__proto__" -> sessions' !! sessionId req = None)
  /\ (sessionId req = u "__proto__" ->
      exists s s', sessions !! sessionId req = Some s
        /\ sessions' !! sessionId req = Some s' /\ flow s' = flow s).
Proof.
  intros Hrun Hend.
  destruct (handler_effect_run req sessions sessions' response t Hrun)
    as [[Hcon _] | (_ & s & Hs & Heff)]; [destruct (not_CON_and_END response Hcon Hend)|].
  split; intros Hk.
  - destruct Heff as [-> | ->]; rewrite (delete_property_ne _ _ Hk); apply lookup_delete_eq.
  - exists s. destruct Heff as [-> | ->]; rewrite (delete_property_proto _ _ Hk).
    + exists s. split; [exact Hs|]. split; [exact Hs | reflexivity].
    + eexists. split; [exact Hs|]. split; [apply lookup_insert_eq | reflexivity].
Qed.

(** *** The remote calls of every request *)

Lemma sendTwilioSms_calls (to : option jsstring) (body : jsstring)
    (sessions : gmap jsstring session) (c : jsstring) (t : list event) :
  run (sendTwilioSms to body) sessions = (Ret c, sessions, t) ->
  t = [] \/
  exists client to',
    twilioClient = Some client /\ to = Some to' /\ E164_test to' = true /\ body <> []
    /\ t = [MessagesCreate {| msg_body := body; msg_from := TWILIO_PHONE_NUMBER;
                              msg_to := to' |}].
Proof.
  unfold run, sendTwilioSms. intros H. apply (f_equal snd) in H. cbn [snd] in H.
  destruct twilioClient as [client|]; [|left; symmetry; exact H].
  destruct to as [[|c0 to0]|]; cbn [truthy negb orb or_else] in H;
    try (left; symmetry; exact H).
  destruct body as [|b0 body0]; cbn [truthy negb orb] in H;
    [left; symmetry; exact H|].
  destruct (E164_test (c0 :: to0)) eqn:Ematch; cbn [negb] in H;
    [|left; symmetry; exact H].
  right. exists client, (c0 :: to0).
  split; [reflexivity|]. split; [reflexivity|]. split; [exact Ematch|].
  split; [discriminate|].
  unfold try_catch, mbind, M_bind, messages_create in H.
  destruct (client _) as [sid | code message]; [symmetry; exact H|].
  repeat match type of H with
         | context [if ?b then _ else _] => destruct b
         end; symmetry; exact H.
Qed.

Lemma getMalariaProbabilityJS_calls (d : option jsstring) (sessions : gmap jsstring session)
    (r : jsstring) (t : list event) :
  run (getMalariaProbabilityJS d) sessions = (Ret r, sessions, t) ->
  t = [] \/ exists client g, ai = Some client /\ t = [GenerateContent g].
Proof.
  unfold run, getMalariaProbabilityJS. intros H. apply (f_equal snd) in H. cbn [snd] in H.
  destruct ai as [client|]; [|left; symmetry; exact H].
  destruct (_ || _); [left; symmetry; exact H|].
  unfold try_catch, mbind, M_bind, generateContent in H.
  right. destruct (client _) as [result|]; eexists _, _;
    (split; [reflexivity | symmetry; exact H]).
Qed.

Lemma getZoneSolutionJS_calls (d : option jsstring) (sessions : gmap jsstring session)
    (r : jsstring) (t : list event) :
  run (getZoneSolutionJS d) sessions = (Ret r, sessions, t) ->
  t = [] \/ exists client g, ai = Some client /\ t = [GenerateContent g].
Proof.
  unfold run, getZoneSolutionJS. intros H. apply (f_equal snd) in H. cbn [snd] in H.
  destruct ai as [client|]; [|left; symmetry; exact H].
  destruct (_ || _); [left; symmetry; exact H|].
  unfold try_catch, mbind, M_bind, generateContent in H.
  right. destruct (client _) as [result|]; eexists _, _;
    (split; [reflexivity | symmetry; exact H]).
Qed.

Lemma providerCalls_of (req : request) (body : jsstring) (sessions : gmap jsstring session)
    (c : jsstring) (t : list event) :
  run (sendTwilioSms (phoneNumber req) body) sessions = (Ret c, sessions, t) ->
  providerCalls req t.
Proof.
  intros H. destruct (sendTwilioSms_calls _ _ _ _ _ H)
    as [-> | (client & to' & H1 & H2 & H3 & H4 & ->)]; [left; reflexivity|].
  right. exists client, to', body. auto.
Qed.

Lemma serviceCalls_of (req : request) (sessions : gmap jsstring session) (s : session)
    (t : list event) :
  sessions !! sessionId req = Some s ->
  In (flow s) analysisFlows ->
  (t = [] \/ exists client g, ai = Some client /\ t = [GenerateContent g]) ->
  serviceCalls req sessions t.
Proof.
  intros Hs Hf [-> | (client & g & H1 & ->)]; [left; reflexivity|].
  right. exists client, g, s. auto.
Qed.

Ltac flow_in :=
  cbn [analysisFlows In];
  match goal with
  | H : (flow ?s === u "symptoms_input") = true |- _ =>
    left; symmetry; apply str_eqb_eq; exact H
  | H : (flow ?s === u "zone_problem_input") = true |- _ =>
    right; left; symmetry; apply str_eqb_eq; exact H
  end.

Ltac service_calls :=
  lazymatch goal with
  | Hs : ?sessions !! sessionId ?req = Some ?s |- serviceCalls ?req ?sessions ?t =>
    apply (serviceCalls_of req sessions s t Hs); [flow_in|];
    lazymatch goal with
    | H : run (getMalariaProbabilityJS ?d) ?s1 = (Ret ?r, ?s1, t) |- _ =>
      exact (getMalariaProbabilityJS_calls d s1 r t H)
    | H : run (getZoneSolutionJS ?d) ?s1 = (Ret ?r, ?s1, t) |- _ =>
      exact (getZoneSolutionJS_calls d s1 r t H)
    end
  end.

Ltac provider_calls :=
  lazymatch goal with
  | H : run (sendTwilioSms (phoneNumber ?req) ?body) ?s1 = (Ret ?c, ?s1, ?t)
    |- providerCalls ?req ?t =>
    exact (providerCalls_of req body s1 c t H)
  end.

Lemma handler_calls (req : request) (sessions : gmap jsstring session) :
  wp (handler req)
     (fun _ _ t =>
        exists g p, t = g ++ p /\ serviceCalls req sessions g /\ providerCalls req p)
     sessions.
Proof.
  unfold handler. wp_run.
  all: cbn [app]; rewrite ?app_nil_r.
  all: lazymatch goal with
       | |- exists g p, [] = _ /\ _ =>
         exists [], []; split; [reflexivity|]; split; left; reflexivity
       | |- exists g p, ?t ++ ?t0 = _ /\ _ =>
         exists t, t0; split; [reflexivity|]; split; [service_calls | provider_calls]
       | Hsms : run (sendTwilioSms _ _) _ = (_, _, ?t) |- exists g p, ?t = _ /\ _ =>
         exists [], t; split; [reflexivity|]; split; [left; reflexivity | provider_calls]
       | |- exists g p, ?t = _ /\ _ =>
         exists t, []; split; [symmetry; apply app_nil_r|];
         split; [service_calls | left; reflexivity]
       end.
Qed.

Lemma handler_calls_run (req : request) (sessions sessions' : gmap jsstring session)
    (response : jsstring) (t : list event) :
  run (handler req) sessions = (Ret response, sessions', t) ->
  exists g p, t = g ++ p /\ serviceCalls req sessions g /\ providerCalls req p.
Proof.
  intros Hrun. destruct (handler_calls req sessions) as (r & s1 & t1 & Hrun' & H).
  rewrite Hrun in Hrun'. injection Hrun' as <- <- <-. exact H.
Qed.

(** X4: a request makes at most one call to the text service and then at
    most one call to the SMS provider, and no other call. *)
Theorem calls_per_request (req : request) (sessions sessions' : gmap jsstring session)
    (response : jsstring) (t : list event) :
  run (handler req) sessions = (Ret response, sessions', t) ->
  exists g p, t = g ++ p
    /\ (length g <= 1)%nat /\ existsb is_sms g = false
    /\ (length p <= 1)%nat /\ forallb is_sms p = true.
Proof.
  intros Hrun.
  destruct (handler_calls_run req sessions sessions' response t Hrun)
    as (g & p & -> & Hg & Hp).
  exists g, p. split; [reflexivity|].
  destruct Hg as [-> | (client & r & s & _ & -> & _)];
    destruct Hp as [-> | (client' & to & body & _ & _ & _ & _ & ->)];
    cbn; repeat split; lia.
Qed.

(** X5: every message the handler hands to the SMS provider goes to the
    phone number of the request, which matches the pattern, from the number
    of the server, with a body that is not empty. *)
Theorem sms_goes_to_caller (req : request) (sessions sessions' : gmap jsstring session)
    (response : jsstring) (t : list event) (m : message_request) :
  run (handler req) sessions = (Ret response, sessions', t) ->
  In (MessagesCreate m) t ->
  (exists client, twilioClient = Some client)
  /\ phoneNumber req = Some (msg_to m)
  /\ E164_test (msg_to m) = true
  /\ msg_from m = TWILIO_PHONE_NUMBER
  /\ msg_body m <> [].
Proof.
  intros Hrun Hin.
  destruct (handler_calls_run req sessions sessions' response t Hrun)
    as (g & p & -> & Hg & Hp).
  apply in_app_or in Hin. destruct Hin as [Hin | Hin].
  - destruct Hg as [-> | (client & r & s & _ & -> & _)]; [destruct Hin|].
    destruct Hin as [Hin | []]. discriminate Hin.
  - destruct Hp as [-> | (client & to & body & H1 & H2 & H3 & H4 & ->)]; [destruct Hin|].
    destruct Hin as [Hin | []]. injection Hin as <-. cbn [msg_to msg_from msg_body].
    split; [exists client; exact H1|]. auto.
Qed.

(** X6: the handler calls the text service only with a client, and only
    for a stored session whose flow is [symptoms_input] or
    [zone_problem_input]. *)
Theorem generate_only_in_analysis_flows (req : request)
    (sessions sessions' : gmap jsstring session) (response : jsstring) (t : list event)
    (g : generate_request) :
  run (handler req) sessions = (Ret response, sessions', t) ->
  In (GenerateContent g) t ->
  (exists client, ai = Some client)
  /\ exists s, sessions !! sessionId req = Some s /\ In (flow s) analysisFlows.
Proof.
  intros Hrun Hin.
  destruct (handler_calls_run req sessions sessions' response t Hrun)
    as (g' & p & -> & Hg & Hp).
  apply in_app_or in Hin. destruct Hin as [Hin | Hin].
  - destruct Hg as [-> | (client & r & s & H1 & -> & H2 & H3)]; [destruct Hin|].
    split; [exists client; exact H1 | exists s; auto].
  - destruct Hp as [-> | (client & to & body & _ & _ & _ & _ & ->)]; [destruct Hin|].
    destruct Hin as [Hin | []]. discriminate Hin.
Qed.

(** *** The SMS helper with a client *)

(** X7: with a client, a number that matches the pattern and a body that is
    not empty, when the provider accepts the message the helper makes that
    one call, with the body, the number of the server and the number given,
    and returns the confirmation that names the number. *)
Theorem sendTwilioSms_delivers (client : message_request -> twilio_reply)
    (to body sid : jsstring) (sessions : gmap jsstring session) :
  twilioClient = Some client ->
  E164_test to = true ->
  body <> [] ->
  client {| msg_body := body; msg_from := TWILIO_PHONE_NUMBER; msg_to := to |} = Created sid ->
  run (sendTwilioSms (Some to) body) sessions
  = (Ret (u "SMS enviado para " ++ to ++ u "!"), sessions,
     [MessagesCreate {| msg_body := body; msg_from := TWILIO_PHONE_NUMBER; msg_to := to |}]).
Proof.
  intros Hclient Hmatch Hbody Hreply. unfold run, sendTwilioSms. rewrite Hclient.
  destruct to as [|c0 to0]; [vm_compute in Hmatch; discriminate Hmatch|].
  destruct body as [|b0 body0]; [contradiction|].
  cbn [truthy negb orb or_else]. rewrite Hmatch. cbn [negb].
  unfold try_catch, mbind, M_bind, messages_create. rewrite Hreply. reflexivity.
Qed.

(** X8: when the provider refuses the message the helper does not throw: it
    has made the one call and returns a failure message, chosen by the code
    of the error: 21211, one of 21610, 21612 and 21614, 21408, or any
    other, for which the message carries the text of the error, or
    [Erro desconhecido] when it has none. *)
Theorem sendTwilioSms_provider_error (client : message_request -> twilio_reply)
    (to body : jsstring) (code : option Z) (message : option jsstring)
    (sessions : gmap jsstring session) :
  twilioClient = Some client ->
  E164_test to = true ->
  body <> [] ->
  client {| msg_body := body; msg_from := TWILIO_PHONE_NUMBER; msg_to := to |}
    = CreateError code message ->
  exists failure,
    run (sendTwilioSms (Some to) body) sessions
    = (Ret failure, sessions,
       [MessagesCreate {| msg_body := body; msg_from := TWILIO_PHONE_NUMBER; msg_to := to |}])
    /\ startsWith failure (u "Falha ao enviar SMS") = true
    /\ (code = Some 21211%Z ->
        failure = u "Falha ao enviar SMS: Número de destino (" ++ to ++ u ") inválido.")
    /\ (In code [Some 21610%Z; Some 21612%Z; Some 21614%Z] ->
        failure = u "Falha ao enviar SMS: O número " ++ to
                    ++ u " não pode receber mensagens deste remetente.")
    /\ (code = Some 21408%Z ->
        failure = u "Falha ao enviar SMS: Não há permissão para enviar SMS para a região do número "
                    ++ to ++ u ".")
    /\ (~ In code [Some 21211%Z; Some 21610%Z; Some 21612%Z; Some 21614%Z; Some 21408%Z] ->
        failure = u "Falha ao enviar SMS para " ++ to ++ u ". ("
                    ++ or_else message (u "Erro desconhecido") ++ u ")").
Proof.
  intros Hclient Hmatch Hbody Hreply. unfold run, sendTwilioSms. rewrite Hclient.
  destruct to as [|c0 to0]; [vm_compute in Hmatch; discriminate Hmatch|].
  destruct body as [|b0 body0]; [contradiction|].
  cbn [truthy negb orb or_else]. rewrite Hmatch. cbn [negb].
  unfold try_catch, mbind, M_bind, messages_create. rewrite Hreply.
  cbn [error_code error_message].
  destruct (bool_decide (code = Some 21211%Z)) eqn:E1.
  { apply bool_decide_eq_true in E1. subst code. eexists. split; [reflexivity|].
    split; [vm_compute; reflexivity|]. cbn [In].
    repeat split; intros H; first [reflexivity | exfalso; clear - H; intuition discriminate]. }
  apply bool_decide_eq_false in E1.
  destruct (bool_decide (code = Some 21610%Z)) eqn:E2.
  { apply bool_decide_eq_true in E2. subst code. eexists. split; [reflexivity|].
    split; [vm_compute; reflexivity|]. cbn [In].
    repeat split; intros H; first [reflexivity | exfalso; clear - H; intuition discriminate]. }
  apply bool_decide_eq_false in E2.
  destruct (bool_decide (code = Some 21612%Z)) eqn:E3.
  { apply bool_decide_eq_true in E3. subst code. eexists. split; [reflexivity|].
    split; [vm_compute; reflexivity|]. cbn [In].
    repeat split; intros H; first [reflexivity | exfalso; clear - H; intuition discriminate]. }
  apply bool_decide_eq_false in E3.
  destruct (bool_decide (code = Some 21614%Z)) eqn:E4.
  { apply bool_decide_eq_true in E4. subst code. eexists. split; [reflexivity|].
    split; [vm_compute; reflexivity|]. cbn [In].
    repeat split; intros H; first [reflexivity | exfalso; clear - H; intuition discriminate]. }
  apply bool_decide_eq_false in E4.
  destruct (bool_decide (code = Some 21408%Z)) eqn:E5.
  { apply bool_decide_eq_true in E5. subst code. eexists. split; [reflexivity|].
    split; [vm_compute; reflexivity|]. cbn [In].
    repeat split; intros H; first [reflexivity | exfalso; clear - H; intuition discriminate]. }
  apply bool_decide_eq_false in E5.
  cbn [orb]. eexists. split; [reflexivity|]. split; [vm_compute; reflexivity|]. cbn [In].
  repeat split; intros H; first [reflexivity | exfalso; clear - H E1 E2 E3 E4 E5; intuition congruence].
Qed.

(** X9: the helper always returns and makes at most one call; it calls the
    provider exactly when there is a client, the number given matches the
    pattern and the body is not empty. *)
Theorem sendTwilioSms_calls_provider_iff (to : option jsstring) (body : jsstring)
    (sessions : gmap jsstring session) :
  exists confirmation t,
    run (sendTwilioSms to body) sessions = (Ret confirmation, sessions, t)
    /\ (length t <= 1)%nat
    /\ (t <> [] <->
        exists client to',
          twilioClient = Some client /\ to = Some to' /\ E164_test to' = true /\ body <> []).
Proof.
  unfold run, sendTwilioSms. destruct twilioClient as [client|].
  2: { eexists _, _. split; [reflexivity|]. split; [cbn; lia|].
       split; [intros H; contradiction | intros (cl & to' & H & _); discriminate H]. }
  destruct to as [[|c0 to0]|]; cbn [truthy negb orb or_else].
  - eexists _, _. split; [reflexivity|]. split; [cbn; lia|].
    split; [intros H; contradiction|].
    intros (cl & to' & _ & H & Hm & _). injection H as <-.
    vm_compute in Hm. discriminate Hm.
  - destruct body as [|b0 body0]; cbn [truthy negb orb].
    { eexists _, _. split; [reflexivity|]. split; [cbn; lia|].
      split; [intros H; contradiction | intros (cl & to' & _ & _ & _ & H); contradiction]. }
    destruct (E164_test (c0 :: to0)) eqn:Ematch; cbn [negb].
    + unfold try_catch, mbind, M_bind, messages_create.
      destruct (client _) as [sid | code message].
      * eexists _, _. split; [reflexivity|]. split; [cbn; lia|].
        split; [|intros _; discriminate].
        intros _. exists client, (c0 :: to0). repeat split; [exact Ematch | discriminate].
      * repeat match goal with
               | |- context [if ?b then _ else _] => destruct b
               end;
          (eexists _, _; split; [reflexivity|]; split; [cbn; lia|];
           split; [|intros _; discriminate];
           intros _; exists client, (c0 :: to0);
           repeat split; [exact Ematch | discriminate]).
    + eexists _, _. split; [reflexivity|]. split; [cbn; lia|].
      split; [intros H; contradiction|].
      intros (cl & to' & _ & H & Hm & _). injection H as <-.
      rewrite Ematch in Hm. discriminate Hm.
  - eexists _, _. split; [reflexivity|]. split; [cbn; lia|].
    split; [intros H; contradiction | intros (cl & to' & _ & H & _); discriminate H].
Qed.

(** *** The Gemini helpers with or without a client *)

(** X10: whatever the description, the client and the answer of the
    service, each helper returns a message that is not empty, leaves the
    store alone and makes at most one call. *)
Theorem gemini_result_never_empty (d : option jsstring) (sessions : gmap jsstring session) :
  (exists result t,
     run (getMalariaProbabilityJS d) sessions = (Ret result, sessions, t)
     /\ result <> [] /\ (length t <= 1)%nat)
  /\ (exists result t,
        run (getZoneSolutionJS d) sessions = (Ret result, sessions, t)
        /\ result <> [] /\ (length t <= 1)%nat).
Proof.
  unfold run, getMalariaProbabilityJS, getZoneSolutionJS.
  destruct ai as [client|].
  2: { split; eexists _, _; (split; [reflexivity|]);
       (split; [intros H; vm_compute in H; discriminate H | cbn; lia]). }
  destruct (_ || _).
  { split; eexists _, _; (split; [reflexivity|]);
      (split; [intros H; vm_compute in H; discriminate H | cbn; lia]). }
  unfold try_catch, mbind, M_bind, generateContent.
  split.
  - destruct (client _) as [[[|c r]|]|]; eexists _, _; (split; [reflexivity|]);
      (split; [intros H; vm_compute in H; discriminate H | cbn; lia]).
  - destruct (client _) as [[[|c r]|]|]; eexists _, _; (split; [reflexivity|]);
      (split; [intros H; vm_compute in H; discriminate H | cbn; lia]).
Qed.

(** *** The analysis branches, by the answer of the text service *)

Lemma run_result_inv {A} (a a' : A) (s s' : gmap jsstring session) (t t' : list event) :
  (Ret a, s, t) = (Ret a', s', t') -> a = a' /\ s = s' /\ t = t'.
Proof. intros H. injection H. auto. Qed.

Lemma or_else_falsy (a : option jsstring) (d : jsstring) :
  truthy a = false -> or_else a d = d.
Proof. destruct a as [[|c r]|]; [reflexivity | discriminate | reflexivity]. Qed.

Lemma getMalariaProbabilityJS_with_client (client : generate_request -> gemini_reply)
    (tok : jsstring) (sessions : gmap jsstring session) :
  ai = Some client ->
  trim tok <> [] ->
  run (getMalariaProbabilityJS (Some tok)) sessions
  = (Ret match client (malariaRequest tok) with
         | Generated text => or_else text (u "Não foi possível obter uma análise dos sintomas.")
         | GenerateError => u "Erro ao analisar sintomas. Tente mais tarde."
         end, sessions, [GenerateContent (malariaRequest tok)]).
Proof.
  intros Hai Hnb. unfold run, getMalariaProbabilityJS. rewrite Hai.
  destruct tok as [|c r]; [exfalso; apply Hnb; reflexivity|].
  cbn [truthy negb orb or_else]. apply str_eqb_neq in Hnb. rewrite Hnb.
  unfold try_catch, mbind, M_bind, generateContent.
  change {| model := u "gemini-1.5-flash-latest"; contents := malariaPrompt (c :: r);
            temperature_tenths := 7; maxOutputTokens := 60 |}
    with (malariaRequest (c :: r)).
  destruct (client (malariaRequest (c :: r))); reflexivity.
Qed.

Lemma getZoneSolutionJS_with_client (client : generate_request -> gemini_reply)
    (tok : jsstring) (sessions : gmap jsstring session) :
  ai = Some client ->
  trim tok <> [] ->
  run (getZoneSolutionJS (Some tok)) sessions
  = (Ret match client (zoneRequest tok) with
         | Generated text => or_else text (u "Não foi possível obter uma sugestão.")
         | GenerateError => u "Erro ao obter sugestão. Tente mais tarde."
         end, sessions, [GenerateContent (zoneRequest tok)]).
Proof.
  intros Hai Hnb. unfold run, getZoneSolutionJS. rewrite Hai.
  destruct tok as [|c r]; [exfalso; apply Hnb; reflexivity|].
  cbn [truthy negb orb or_else]. apply str_eqb_neq in Hnb. rewrite Hnb.
  unfold try_catch, mbind, M_bind, generateContent.
  change {| model := u "gemini-1.5-flash-latest"; contents := zonePrompt (c :: r);
            temperature_tenths := 5; maxOutputTokens := 80 |}
    with (zoneRequest (c :: r)).
  destruct (client (zoneRequest (c :: r))); reflexivity.
Qed.

(** Enter an analysis branch of the handler: a stored session [s] in the
    flow [Hf], a token [tok] that is not blank. *)
Ltac enter_analysis Hs Htok Hnb Hf :=
  let Hne := fresh "Hne" in
  let Htr := fresh "Htr" in
  match type of Hnb with
  | trim ?tok <> [] =>
    assert (Hne : (tok === []) = false)
      by (apply str_eqb_neq; intros ->; apply Hnb; reflexivity);
    assert (Htr : truthy (Some tok) = true)
      by (destruct tok; [discriminate Hne | reflexivity]);
    pose proof (proj2 (str_eqb_neq (trim tok) []) Hnb) as Hnb';
    apply wp_run_eq; unfold handler; rewrite Htok, Hne, Hnb', Htr;
    match type of Hs with
    | _ = Some ?s => destruct s as [f d]; cbn [flow] in Hf; subst f
    end;
    wp_run
  end.

(** X11: when the text service throws, an analysis branch answers [END]
    with the error message of its helper; the provider of SMS is not
    called. The store is left as [delete sessions[sessionId]] leaves it:
    without the session, for every key but [__proto__]. *)
Theorem analysis_service_error_no_sms (req : request) (sessions : gmap jsstring session)
    (s : session) (tok : jsstring) (client : generate_request -> gemini_reply) :
  sessions !! sessionId req = Some s ->
  lastInput_of (text req) = tok ->
  trim tok <> [] ->
  ai = Some client ->
  (flow s = u "symptoms_input" ->
   client (malariaRequest tok) = GenerateError ->
   run (handler req) sessions
   = (Ret (u "END " ++ u "Erro ao analisar sintomas. Tente mais tarde."),
      delete_property (sessionId req) sessions, [GenerateContent (malariaRequest tok)]))
  /\
  (flow s = u "zone_problem_input" ->
   client (zoneRequest tok) = GenerateError ->
   run (handler req) sessions
   = (Ret (u "END " ++ u "Erro ao obter sugestão. Tente mais tarde."),
      delete_property (sessionId req) sessions, [GenerateContent (zoneRequest tok)])).
Proof.
  intros Hs Htok Hnb Hclient. split; intros Hf Hreply.
  - pose proof (getMalariaProbabilityJS_with_client client tok sessions Hclient Hnb) as Hw.
    rewrite Hreply in Hw. enter_analysis Hs Htok Hnb Hf.
    all: rewrite Hw in Hai; apply run_result_inv in Hai; destruct Hai as (<- & _ & <-).
    + reflexivity.
    + vm_compute in Htest. discriminate Htest.
  - pose proof (getZoneSolutionJS_with_client client tok sessions Hclient Hnb) as Hw.
    rewrite Hreply in Hw. enter_analysis Hs Htok Hnb Hf.
    all: rewrite Hw in Hai; apply run_result_inv in Hai; destruct Hai as (<- & _ & <-).
    + reflexivity.
    + vm_compute in Htest. discriminate Htest.
Qed.

(** X12: when the text service answers with no text, the helper returns its
    could-not-obtain message, which holds no failure marker: the analysis
    branch hands it to the SMS helper as a result and answers [END] with
    it and the message of the SMS helper. The store is left as
    [delete sessions[sessionId]] leaves it. *)
Theorem analysis_empty_text_is_sent (req : request) (sessions : gmap jsstring session)
    (s : session) (tok : jsstring) (client : generate_request -> gemini_reply)
    (answer : option jsstring) :
  sessions !! sessionId req = Some s ->
  lastInput_of (text req) = tok ->
  trim tok <> [] ->
  ai = Some client ->
  truthy answer = false ->
  (flow s = u "symptoms_input" ->
   client (malariaRequest tok) = Generated answer ->
   exists confirmation t,
     run (sendTwilioSms (phoneNumber req)
            (u "Resultado da sua análise de sintomas (USSD MapaZZZ): "
               ++ u "Não foi possível obter uma análise dos sintomas.")) sessions
       = (Ret confirmation, sessions, t)
     /\ run (handler req) sessions
        = (Ret (u "END Análise: " ++ u "Não foi possível obter uma análise dos sintomas."
                  ++ u " " ++ confirmation),
           delete_property (sessionId req) sessions, GenerateContent (malariaRequest tok) :: t))
  /\
  (flow s = u "zone_problem_input" ->
   client (zoneRequest tok) = Generated answer ->
   exists confirmation t,
     run (sendTwilioSms (phoneNumber req)
            (u "Sugestão para o problema na sua zona (USSD MapaZZZ): "
               ++ u "Não foi possível obter uma sugestão.")) sessions
       = (Ret confirmation, sessions, t)
     /\ run (handler req) sessions
        = (Ret (u "END Sugestão: " ++ u "Não foi possível obter uma sugestão."
                  ++ u " " ++ confirmation),
           delete_property (sessionId req) sessions, GenerateContent (zoneRequest tok) :: t)).
Proof.
  intros Hs Htok Hnb Hclient Hanswer. split; intros Hf Hreply.
  - pose proof (getMalariaProbabilityJS_with_client client tok sessions Hclient Hnb) as Hw.
    rewrite Hreply in Hw.
    rewrite (or_else_falsy answer _ Hanswer) in Hw.
    apply wp_run_outcome with
      (P := fun r => exists confirmation t, _ = (Ret confirmation, sessions, t) /\ r = _).
    unfold handler.
    assert (Hne : (tok === []) = false)
      by (apply str_eqb_neq; intros ->; apply Hnb; reflexivity).
    assert (Htr : truthy (Some tok) = true)
      by (destruct tok; [discriminate Hne | reflexivity]).
    apply str_eqb_neq in Hnb. rewrite Htok, Hne, Hnb, Htr.
    destruct s as [f d]; cbn [flow] in Hf; subst f. wp_run.
    all: rewrite Hw in Hai; apply run_result_inv in Hai; destruct Hai as (<- & _ & <-).
    + vm_compute in Htest. discriminate Htest.
    + exists confirmation, t0. split; [exact Hsms|].
      cbn [app]. rewrite ?app_nil_r. reflexivity.
  - pose proof (getZoneSolutionJS_with_client client tok sessions Hclient Hnb) as Hw.
    rewrite Hreply in Hw.
    rewrite (or_else_falsy answer _ Hanswer) in Hw.
    apply wp_run_outcome with
      (P := fun r => exists confirmation t, _ = (Ret confirmation, sessions, t) /\ r = _).
    unfold handler.
    assert (Hne : (tok === []) = false)
      by (apply str_eqb_neq; intros ->; apply Hnb; reflexivity).
    assert (Htr : truthy (Some tok) = true)
      by (destruct tok; [discriminate Hne | reflexivity]).
    apply str_eqb_neq in Hnb. rewrite Htok, Hne, Hnb, Htr.
    destruct s as [f d]; cbn [flow] in Hf; subst f. wp_run.
    all: rewrite Hw in Hai; apply run_result_inv in Hai; destruct Hai as (<- & _ & <-).
    + vm_compute in Htest. discriminate Htest.
    + exists confirmation, t0. split; [exact Hsms|].
      cbn [app]. rewrite ?app_nil_r. reflexivity.
Qed.

(** X13: without a client of the text service an analysis branch answers
    [END] with the unavailable-service message alone and makes no call at
    all. The store is left as [delete sessions[sessionId]] leaves it. *)
Theorem analysis_without_ai (req : request) (sessions : gmap jsstring session)
    (s : session) (tok : jsstring) :
  sessions !! sessionId req = Some s ->
  lastInput_of (text req) = tok ->
  trim tok <> [] ->
  ai = None ->
  In (flow s) analysisFlows ->
  run (handler req) sessions
  = (Ret (u "END " ++ aiUnavailable), delete_property (sessionId req) sessions, []).
Proof.
  intros Hs Htok Hnb Hnone Hflow.
  cbn [analysisFlows In] in Hflow. destruct Hflow as [Hf | [Hf | []]]; symmetry in Hf.
  - enter_analysis Hs Htok Hnb Hf.
    all: unfold run, getMalariaProbabilityJS in Hai; rewrite Hnone in Hai;
      apply run_result_inv in Hai; destruct Hai as (<- & _ & <-).
    + reflexivity.
    + vm_compute in Htest. discriminate Htest.
  - enter_analysis Hs Htok Hnb Hf.
    all: unfold run, getZoneSolutionJS in Hai; rewrite Hnone in Hai;
      apply run_result_inv in Hai; destruct Hai as (<- & _ & <-).
    + reflexivity.
    + vm_compute in Htest. discriminate Htest.
Qed.

(** *** The filters and the bounds of the formatters *)

(** X14: without a filter, or with the empty string for one, every zone is
    kept; with a filter whose lower-case form is [alto], [médio] or
    [baixo], the zones kept are exactly the zones whose risk level is the
    number of that name. *)
Theorem filterZones_selects (zones : list zone) :
  filterZones zones None = zones
  /\ filterZones zones (Some []) = zones
  /\ forall (f : jsstring) (n : Z) (z : zone),
       f <> [] ->
       riskLevelStringToNumeric (toLowerCase f) = Some n ->
       (In z (filterZones zones (Some f)) <-> In z zones /\ riskLevel z = Some n).
Proof.
  split; [reflexivity|]. split; [reflexivity|].
  intros f n z Hf Hn. unfold filterZones.
  destruct f as [|c r]; [contradiction|]. rewrite Hn.
  rewrite filter_In, bool_decide_eq_true. reflexivity.
Qed.

(** X15: a filter whose lower-case form is none of the three names lists no
    zone, whatever the zones: the text is the none-found message that names
    the filter in lower case. *)
Theorem unrecognised_filter_lists_nothing (zones : option (list zone)) (f : jsstring) :
  f <> [] ->
  riskLevelStringToNumeric (toLowerCase f) = None ->
  formatZonesForUSSD zones (Some f)
  = u "Nenhuma zona de risco " ++ (toLowerCase f ++ u " ") ++ u "encontrada.".
Proof.
  intros Hf Hn. destruct f as [|c r]; [contradiction|].
  unfold formatZonesForUSSD. destruct zones as [[|z zones]|]; try reflexivity.
  unfold filterZones. rewrite Hn. reflexivity.
Qed.

(** X16: when 1 to 5 zones pass the filter the text lists them all and has
    no count of further zones; when more than 5 pass it lists the first 5
    and counts the others. *)
Theorem zones_listing_by_count (z : zone) (zones : list zone) (f : option jsstring) :
  filterZones (z :: zones) f <> [] ->
  ((length (filterZones (z :: zones) f) <= 5)%nat ->
   formatZonesForUSSD (Some (z :: zones)) f
   = zonesListing f (filterZones (z :: zones) f) 0)
  /\ ((5 < length (filterZones (z :: zones) f))%nat ->
      formatZonesForUSSD (Some (z :: zones)) f
      = zonesListing f (take 5 (filterZones (z :: zones) f))
          (length (filterZones (z :: zones) f) - 5)).
Proof.
  intros Hne. rewrite (formatZonesForUSSD_listing z zones f Hne).
  unfold MAX_ZONES_TO_SHOW. split; intros Hlen.
  - rewrite take_ge, length_drop by exact Hlen.
    replace (length (filterZones (z :: zones) f) - 5)%nat with 0%nat by lia. reflexivity.
  - rewrite length_drop. reflexivity.
Qed.

(** X17: the reports are filtered only by a municipality that is not empty
    and whose lower-case form is neither [outro] nor [todos]; the reports
    kept are then exactly those with a municipality of the same lower-case
    form. *)
Theorem filterReports_selects (reports : list report) (g : option jsstring) :
  (isSpecificMunicipality g = false -> filterReports reports g = reports)
  /\ forall (f : jsstring) (r : report),
       g = Some f ->
       isSpecificMunicipality g = true ->
       (In r (filterReports reports g) <->
        In r reports
        /\ exists m, municipality r = Some m /\ m <> [] /\ toLowerCase m = toLowerCase f).
Proof.
  split.
  - intros Hg. unfold filterReports. rewrite Hg. destruct g; reflexivity.
  - intros f r -> Hg. unfold filterReports. rewrite Hg. rewrite filter_In.
    split; intros [Hin Hm]; (split; [exact Hin|]).
    + destruct (municipality r) as [[|c m]|]; try discriminate Hm.
      exists (c :: m). split; [reflexivity|]. split; [discriminate|].
      apply str_eqb_eq. exact Hm.
    + destruct Hm as (m & -> & Hne & Heq). destruct m as [|c m]; [contradiction|].
      apply str_eqb_eq. exact Heq.
Qed.

Lemma length_dots : length (u "...") = 3%nat.
Proof. vm_compute. reflexivity. Qed.

Lemma length_no_description : length (u "Sem descrição.") = 14%nat.
Proof. vm_compute. reflexivity. Qed.

(** X18: the description a report is displayed with is never longer than 70
    characters. *)
Theorem displayDescription_at_most_70 (r : report) :
  (length (displayDescription r) <= 70)%nat.
Proof.
  unfold displayDescription, substring0.
  destruct (70 <? length (or_else (description r) (u "Sem descrição.")))%nat eqn:E.
  - apply Nat.ltb_lt in E. rewrite length_app, length_take, length_dots. lia.
  - apply Nat.ltb_ge in E. exact E.
Qed.

(** *** The transitions of the dialog *)

Lemma wp_run_response {A} (m : M A) (sessions expected : gmap jsstring session)
    (trace : list event) (P : A -> Prop) :
  wp m (fun a sessions' t => sessions' = expected /\ t = trace /\ P a) sessions ->
  exists a, run m sessions = (Ret a, expected, trace) /\ P a.
Proof. intros (a & s1 & t & Hrun & -> & -> & HP). exists a. split; assumption. Qed.

Lemma pair_inv {A B} (a a' : A) (b b' : B) : (a, b) = (a', b') -> a = a' /\ b = b'.
Proof. intros H. injection H. auto. Qed.

(** The comparisons of a string that is none of the strings of a list. *)
Lemma not_In_eqb (x : jsstring) (l : list jsstring) :
  ~ In x l -> Forall (fun y => (x === y) = false) l.
Proof.
  intros H. apply List.Forall_forall. intros y Hy. apply str_eqb_neq. intros ->. exact (H Hy).
Qed.

(** X20: in the main menu the tokens 1 to 5 continue the dialog: the
    response is a [CON] prompt, the session is left in the flow of the
    token with empty data, and no call is made. *)
Theorem menu_selection (req : request) (sessions : gmap jsstring session) (s : session)
    (f : jsstring) :
  sessions !! sessionId req = Some s ->
  flow s = u "menu" ->
  In (lastInput_of (text req), f) menuTargets ->
  exists prompt,
    run (handler req) sessions
    = (Ret prompt, <[sessionId req := {| flow := f; data := ∅ |}]> sessions, [])
    /\ startsWith prompt (u "CON ") = true.
Proof.
  intros Hs Hf Hin. apply wp_run_response. unfold handler.
  destruct s as [f0 d]. cbn [flow] in Hf. subst f0.
  cbn [menuTargets In] in Hin.
  destruct Hin as [H | [H | [H | [H | [H | []]]]]];
    apply pair_inv in H; destruct H as [<- <-]; wp_run;
    cbn [data flow]; rewrite insert_insert_eq;
    (split; [reflexivity|]); (split; [reflexivity|]); vm_compute; reflexivity.
Qed.

(** X21: for a key that the store does not hold, or holds with an empty or
    an [initial] flow, the handler answers with the main menu whatever the
    text of the request, and stores a [menu] session; it makes no call. *)
Theorem first_contact (req : request) (sessions : gmap jsstring session) :
  (sessions !! sessionId req = None
   \/ exists s, sessions !! sessionId req = Some s /\ (flow s = [] \/ flow s = u "initial")) ->
  run (handler req) sessions
  = (Ret mainMenu, <[sessionId req := menu_session]> sessions, []).
Proof.
  intros [Hs | ([f d] & Hs & [Hf | Hf])]; apply wp_run_eq; unfold handler;
    try (cbn [flow] in Hf; subst f); wp_run;
    rewrite ?insert_insert_eq; reflexivity.
Qed.

(** X22: in each submenu the token for the main menu brings the main menu
    back: the session is a [menu] session again and no call is made. *)
Theorem back_to_menu (req : request) (sessions : gmap jsstring session) (s : session) :
  sessions !! sessionId req = Some s ->
  In (flow s, lastInput_of (text req)) backTokens ->
  run (handler req) sessions
  = (Ret mainMenu, <[sessionId req := menu_session]> sessions, []).
Proof.
  intros Hs Hin. apply wp_run_eq. unfold handler. destruct s as [f d].
  cbn [flow backTokens In] in Hin.
  destruct Hin as [H | [H | [H | []]]];
    apply pair_inv in H; destruct H as [<- <-]; wp_run; reflexivity.
Qed.

(** Rewrite the comparisons of [x] with the strings of a list it is not
    in. *)
Ltac rewrite_not_In H :=
  apply not_In_eqb in H;
  repeat match type of H with
         | Forall _ (_ :: _) =>
           let H1 := fresh "Hne" in
           let H2 := fresh "Hrest" in
           pose proof (Forall_inv H) as H1; pose proof (Forall_inv_tail H) as H2;
           cbv beta in H1; rewrite ?H1; clear H; rename H2 into H
         end;
  clear H.

(** X23: a stored flow that is none of the seven the handler knows is
    answered with the main menu and replaced by a [menu] session, whatever
    the text of the request; no call is made. *)
Theorem unknown_flow_resets (req : request) (sessions : gmap jsstring session) (s : session) :
  sessions !! sessionId req = Some s ->
  flow s <> [] ->
  ~ In (flow s) knownFlows ->
  run (handler req) sessions
  = (Ret mainMenu, <[sessionId req := menu_session]> sessions, []).
Proof.
  intros Hs Hne Hunknown. apply wp_run_eq. unfold handler. destruct s as [f d].
  cbn [flow] in *.
  assert (Htr : truthy (Some f) = true) by (destruct f; [contradiction | reflexivity]).
  unfold knownFlows, liveFlows in Hunknown.
  do 4 wp_step. cbn [flow]. rewrite Htr. cbn [negb]. wp_step.
  cbv beta iota zeta. cbn [flow]. rewrite_not_In Hunknown.
  wp_run; reflexivity.
Qed.

Lemma reports_forEach :
  forEach
    (fun acc report index =>
       add_item (length sampleReports) acc index (sim_title report) (sim_report_risk report))
    sampleReports
    (u "Reportagens (Simulado):" ++ nl, u "Reportagens (MapaZZZ):" ++ nl)
  = (reportsUssdText ++ nl, reportsSmsText).
Proof. vm_compute. reflexivity. Qed.

Lemma trim_reportsUssdText : trim (reportsUssdText ++ nl) = reportsUssdText.
Proof. vm_compute. reflexivity. Qed.

(** X24: in the reports branch every token from 1 to 5 gets the same
    answer: the SMS copy of the simulated list of three reports, whole,
    goes to the SMS helper, and the response is [END], the USSD copy of the
    list and the message of the helper; the municipality selected is not
    used. The store is left as [delete sessions[sessionId]] leaves it. *)
Theorem reports_selection_reply (req : request) (sessions : gmap jsstring session)
    (s : session) :
  sessions !! sessionId req = Some s ->
  flow s = u "reports_municipality_selection" ->
  In (lastInput_of (text req)) municipalityTokens ->
  run (handler req) sessions = run (reportsReply (sessionId req) (phoneNumber req)) sessions
  /\ exists smsConfirmation t,
       run (sendTwilioSms (phoneNumber req) reportsSmsText) sessions
         = (Ret smsConfirmation, sessions, t)
       /\ run (handler req) sessions
          = (Ret (u "END " ++ reportsUssdText ++ nl ++ smsConfirmation),
             delete_property (sessionId req) sessions, t).
Proof.
  intros Hs Hf Htok.
  assert (Hbranch : run (handler req) sessions
                    = run (reportsReply (sessionId req) (phoneNumber req)) sessions).
  { apply wp_run_eq. unfold handler. rewrite reports_forEach.
    destruct Htok as [<- | [<- | [<- | [<- | [<- | []]]]]].
    all: destruct s as [f d]; cbn [flow] in Hf; subst f; wp_run.
    all: rewrite trim_reportsUssdText; unfold reportsReply; unfold_M; unfold run in Hsms;
      rewrite Hsms; cbn [app]; rewrite ?app_nil_r; reflexivity. }
  split; [exact Hbranch|]. rewrite Hbranch.
  destruct (sendTwilioSms_returns (phoneNumber req) reportsSmsText sessions) as (c & t & Hsms).
  exists c, t. split; [exact Hsms|].
  unfold reportsReply. unfold_M. unfold run in Hsms. rewrite Hsms.
  cbn [app]. rewrite ?app_nil_r. reflexivity.
Qed.

(** X25: in the health tips menu the tokens 1 to 3 pick a tip: the tip goes
    to the SMS helper after a fixed heading, and the response is [END], the
    tip and the message of the helper. The store is left as
    [delete sessions[sessionId]] leaves it. *)
Theorem health_tip_reply (req : request) (sessions : gmap jsstring session) (s : session)
    (tip : jsstring) :
  sessions !! sessionId req = Some s ->
  flow s = u "health_tips_menu" ->
  In (lastInput_of (text req), tip) healthTips ->
  exists smsConfirmation t,
    run (sendTwilioSms (phoneNumber req) (u "Dica de Saúde (USSD MapaZZZ): " ++ tip)) sessions
      = (Ret smsConfirmation, sessions, t)
    /\ run (handler req) sessions
       = (Ret (u "END " ++ tip ++ u " " ++ smsConfirmation),
          delete_property (sessionId req) sessions, t).
Proof.
  intros Hs Hf Hin.
  apply wp_run_outcome with
    (P := fun r => exists smsConfirmation t, _ = (Ret smsConfirmation, sessions, t) /\ r = _).
  unfold handler. destruct s as [f d]. cbn [flow] in Hf. subst f.
  cbn [healthTips In] in Hin.
  destruct Hin as [H | [H | [H | []]]];
    apply pair_inv in H; destruct H as [<- <-]; wp_run;
    exists confirmation, t; (split; [exact Hsms|]);
    cbn [app]; rewrite ?app_nil_r; reflexivity.
Qed.

(** X26: an input the handler refuses (a token that is no option of the
    menu of the flow, or a description of white space only) is answered
    with the [END] message of the flow, and no call is made. The session is
    deleted under every key but [__proto__]; under that key it stays in the
    store, in its flow. *)
Theorem refused_input_ends (req : request) (sessions : gmap jsstring session) (s : session)
    (f tok response : jsstring) :
  sessions !! sessionId req = Some s ->
  flow s = f ->
  lastInput_of (text req) = tok ->
  refused f tok response ->
  exists sessions',
    run (handler req) sessions = (Ret response, sessions', [])
    /\ (sessionId req <> u "__proto__" -> sessions' = delete (sessionId req) sessions)
    /\ (sessionId req = u "__proto__" ->
        exists s', sessions' !! sessionId req = Some s' /\ flow s' = f).
Proof.
  intros Hs Hf Htok Hrefused.
  apply wp_run_outcome with
    (P := fun r => exists sessions', r = (Ret response, sessions', []) /\ _).
  unfold handler. rewrite Htok.
  destruct s as [f0 d]. cbn [flow] in Hf. subst f0.
  destruct Hrefused as [-> Hnot | -> Hnot | -> Hnot | -> Hnot | -> Hne Hblank | -> Hne Hblank].
  1-4: do 5 wp_step; cbv beta iota zeta; cbn [flow]; rewrite_not_In Hnot; wp_run.
  5-6: apply str_eqb_neq in Hne;
    assert (Htr : truthy (Some tok) = true)
      by (destruct tok; [discriminate Hne | reflexivity]);
    do 5 wp_step; cbv beta iota zeta; cbn [flow]; rewrite Hne, Hblank, Htr; wp_run.
  all: cbn [app]; eexists; split; [reflexivity|]; split; intros Hk.
  all: first
    [ rewrite (delete_property_ne _ _ Hk), ?delete_insert_eq; reflexivity
    | rewrite (delete_property_proto _ _ Hk); eexists;
      split; [first [apply lookup_insert_eq | exact Hs] | reflexivity] ].
Qed.

(** *** Dialogs *)

Lemma not_END_and_CON_ (r : jsstring) :
  startsWith r (u "END ") = true -> startsWith r (u "CON ") = true -> False.
Proof.
  destruct r as [|c r']; [vm_compute; discriminate|].
  change (u "END ") with (69 :: u "ND "). change (u "CON ") with (67 :: u "ON ").
  cbn [startsWith]. rewrite !andb_true_iff, !N.eqb_eq.
  intros [H1 _] [H2 _]. rewrite <- H1 in H2. discriminate H2.
Qed.

(** Under a key other than [__proto__] an [END] response leaves the store
    without the session; under [__proto__] every response leaves the
    session in the store. *)
Lemma storeEffect_own (req : request) (sessions sessions' : gmap jsstring session)
    (response : jsstring) :
  storeEffect req sessions response sessions' ->
  sessionId req <> u "__proto__" ->
  (startsWith response (u "CON ") = true
   /\ exists f, In f liveFlows
        /\ sessions' = <[sessionId req := {| flow := f; data := ∅ |}]> sessions)
  \/ (startsWith response (u "END ") = true /\ sessions' = delete (sessionId req) sessions).
Proof.
  intros [Hcon | (Hend & s & _ & [-> | ->])] Hk; [left; exact Hcon | right | right].
  - split; [exact Hend | apply delete_property_ne; exact Hk].
  - split; [exact Hend|]. rewrite (delete_property_ne _ _ Hk). apply delete_insert_eq.
Qed.

Lemma storeEffect_proto (req : request) (sessions sessions' : gmap jsstring session)
    (response : jsstring) :
  storeEffect req sessions response sessions' ->
  sessionId req = u "__proto__" ->
  is_Some (sessions' !! sessionId req).
Proof.
  intros [(_ & f & _ & ->) | (_ & s & Hs & [-> | ->])] Hk.
  - rewrite lookup_insert_eq. eexists. reflexivity.
  - rewrite (delete_property_proto _ _ Hk), Hs. eexists. reflexivity.
  - rewrite (delete_property_proto _ _ Hk), lookup_insert_eq. eexists. reflexivity.
Qed.

(** Every request of a dialog is answered. *)
Lemma dialog_length (reqs : list request) :
  forall (sessions sessions' : gmap jsstring session) (responses : list jsstring),
    dialog reqs sessions = (responses, sessions') -> length responses = length reqs.
Proof.
  induction reqs as [|req rest IH]; intros sessions sessions' responses Hd; cbn [dialog] in Hd.
  - apply pair_inv in Hd. destruct Hd as [<- _]. reflexivity.
  - destruct (handler_returns req sessions) as (r & s1 & t & Hrun).
    rewrite Hrun in Hd. destruct (dialog rest s1) as [rs s2] eqn:Erest.
    apply pair_inv in Hd. destruct Hd as [<- _].
    cbn [length]. rewrite (IH s1 s2 rs Erest). reflexivity.
Qed.

(** The last response of a dialog of one key other than [__proto__] decides
    what the dialog did to the store. *)
Lemma dialog_effect (k : jsstring) (reqs : list request) :
  Forall (fun req => sessionId req = k) reqs ->
  reqs <> [] ->
  k <> u "__proto__" ->
  forall (sessions sessions' : gmap jsstring session) (responses : list jsstring),
    dialog reqs sessions = (responses, sessions') ->
    exists r, last responses = Some r
      /\ ((startsWith r (u "CON ") = true
           /\ exists f, In f liveFlows
                /\ sessions' = <[k := {| flow := f; data := ∅ |}]> sessions)
          \/ (startsWith r (u "END ") = true /\ sessions' = delete k sessions)).
Proof.
  induction reqs as [|req rest IH]; intros Hk Hne Hown sessions sessions' responses Hd;
    [contradiction|].
  apply Forall_cons in Hk. destruct Hk as [Hreq Hrest].
  cbn [dialog] in Hd.
  destruct (handler_effect req sessions) as (r & s1 & t & Hrun & Heff).
  rewrite Hrun in Hd.
  apply storeEffect_own in Heff; [|rewrite Hreq; exact Hown].
  rewrite Hreq in Heff.
  destruct (dialog rest s1) as [rs s2] eqn:Erest.
  apply pair_inv in Hd. destruct Hd as [<- <-].
  destruct rest as [|req' rest'].
  - cbn [dialog] in Erest. apply pair_inv in Erest. destruct Erest as [<- <-].
    exists r. split; [reflexivity | exact Heff].
  - destruct (IH Hrest ltac:(discriminate) Hown s1 s2 rs Erest) as (r' & Hlast & Hr').
    exists r'. split.
    { destruct rs as [|r0 rs']; [discriminate Hlast | exact Hlast]. }
    destruct Heff as [[_ (f1 & _ & ->)] | [_ ->]];
      destruct Hr' as [[Hcon (f2 & Hf2 & ->)] | [Hend ->]].
    + left. split; [exact Hcon|]. exists f2. split; [exact Hf2 | apply insert_insert_eq].
    + right. split; [exact Hend | apply delete_insert_eq].
    + left. split; [exact Hcon|]. exists f2. split; [exact Hf2 | apply insert_delete_eq].
    + right. split; [exact Hend | apply delete_delete_eq].
Qed.

(** A dialog under the key [__proto__] leaves the session in the store. *)
Lemma dialog_proto (k : jsstring) (reqs : list request) :
  Forall (fun req => sessionId req = k) reqs ->
  reqs <> [] ->
  k = u "__proto__" ->
  forall (sessions sessions' : gmap jsstring session) (responses : list jsstring),
    dialog reqs sessions = (responses, sessions') ->
    is_Some (sessions' !! k).
Proof.
  induction reqs as [|req rest IH]; intros Hk Hne Hproto sessions sessions' responses Hd;
    [contradiction|].
  apply Forall_cons in Hk. destruct Hk as [Hreq Hrest].
  cbn [dialog] in Hd.
  destruct (handler_effect req sessions) as (r & s1 & t & Hrun & Heff).
  rewrite Hrun in Hd.
  apply storeEffect_proto in Heff; [|rewrite Hreq; exact Hproto].
  rewrite Hreq in Heff.
  destruct (dialog rest s1) as [rs s2] eqn:Erest.
  apply pair_inv in Hd. destruct Hd as [_ <-].
  destruct rest as [|req' rest'].
  - cbn [dialog] in Erest. apply pair_inv in Erest. destruct Erest as [_ <-]. exact Heff.
  - exact (IH Hrest ltac:(discriminate) Hproto s1 s2 rs Erest).
Qed.

(** X27: the requests of a dialog of one key are all answered. Under a key
    other than [__proto__], when the last response begins with [END ] the
    store at the end is the store at the start without the key: the store
    at the start itself when it did not hold the key. Under [__proto__] the
    session is in the store at the end, whatever the last response. *)
Theorem dialog_closes (k : jsstring) (reqs : list request)
    (sessions sessions' : gmap jsstring session) (responses : list jsstring) :
  Forall (fun req => sessionId req = k) reqs ->
  dialog reqs sessions = (responses, sessions') ->
  length responses = length reqs
  /\ (forall r, last responses = Some r -> startsWith r (u "END ") = true ->
      k <> u "__proto__" ->
      sessions' = delete k sessions /\ (sessions !! k = None -> sessions' = sessions))
  /\ (reqs <> [] -> k = u "__proto__" -> is_Some (sessions' !! k)).
Proof.
  intros Hk Hd.
  split; [exact (dialog_length reqs sessions sessions' responses Hd)|]. split.
  - intros r Hlast Hend Hown.
    destruct reqs as [|req rest].
    { cbn [dialog] in Hd. apply pair_inv in Hd. destruct Hd as [<- _]. discriminate Hlast. }
    destruct (dialog_effect k (req :: rest) Hk ltac:(discriminate) Hown sessions sessions'
                responses Hd) as (r' & Hlast' & Heff).
    rewrite Hlast in Hlast'. injection Hlast' as <-.
    destruct Heff as [[Hcon _] | [_ ->]]; [destruct (not_END_and_CON_ r Hend Hcon)|].
    split; [reflexivity|]. apply delete_id.
  - intros Hne Hproto.
    exact (dialog_proto k reqs Hk Hne Hproto sessions sessions' responses Hd).
Qed.

End Server.

(** ** Strings and the last input token *)

Lemma startsWith_char (c : N) (s : jsstring) :
  startsWith s [c] = match s with d :: _ => c =? d | [] => false end.
Proof. destruct s as [|d s']; simpl; [reflexivity | apply andb_true_r]. Qed.

Lemma includes_char_In (c : N) (s : jsstring) : includes s [c] = true <-> In c s.
Proof.
  induction s as [|d s' IH].
  - simpl. split; [discriminate | tauto].
  - change (includes (d :: s') [c]) with (startsWith (d :: s') [c] || includes s' [c]).
    rewrite startsWith_char, orb_true_iff, N.eqb_eq, IH. simpl.
    split; (intros [H | H]; [left; congruence | right; exact H]).
Qed.

Lemma includes_char_not_In (c : N) (s : jsstring) : ~ In c s -> includes s [c] = false.
Proof.
  intros H. destruct (includes s [c]) eqn:E; [|reflexivity].
  apply includes_char_In in E. contradiction.
Qed.

(** A string without the separator is one piece. *)
Lemma split_without (c : N) (s : jsstring) : ~ In c s -> split c s = [s].
Proof.
  induction s as [|d s' IH]; intros H; simpl; [reflexivity|].
  destruct (N.eqb_spec d c) as [->|Hne].
  - exfalso. apply H. left. reflexivity.
  - rewrite IH; [reflexivity|]. intros Hin. apply H. right. exact Hin.
Qed.

(** The piece after the last separator is the last piece. *)
Lemma split_after_last (c : N) (pre tok : jsstring) :
  ~ In c tok -> exists p ps, split c (pre ++ c :: tok) = (p :: ps) ++ [tok].
Proof.
  intros Htok. induction pre as [|d pre' IH]; simpl.
  - rewrite N.eqb_refl, (split_without c tok Htok). exists [], []. reflexivity.
  - destruct IH as (p & ps & ->). destruct (d =? c).
    + exists [], (p :: ps). reflexivity.
    + exists (d :: p), ps. reflexivity.
Qed.

Lemma pop_split_after_last (c : N) (pre tok : jsstring) :
  ~ In c tok -> pop (split c (pre ++ c :: tok)) = Some tok.
Proof.
  intros Htok. destruct (split_after_last c pre tok Htok) as (p & ps & ->).
  unfold pop. apply last_snoc.
Qed.

(** Every string that holds the separator has a piece after the last one. *)
Lemma In_last_occurrence (c : N) (s : jsstring) :
  In c s -> exists pre tok, s = pre ++ c :: tok /\ ~ In c tok.
Proof.
  induction s as [|d s' IH]; intros H; [destruct H|].
  destruct (in_dec N.eq_dec c s') as [Hin | Hnin].
  - destruct (IH Hin) as (pre & tok & -> & Htok). exists (d :: pre), tok. auto.
  - destruct H as [-> | H]; [|contradiction]. exists [], s'. auto.
Qed.

(** C4: the last input token is the empty string when [text] is absent or
    empty, the part of [text] after its final [*] when it holds one, and
    the whole of [text] when it holds none. *)
Theorem lastInput_extraction :
  lastInput_of None = [] /\
  lastInput_of (Some []) = [] /\
  (forall pre tok : jsstring, ~ In 42 tok -> lastInput_of (Some (pre ++ 42 :: tok)) = tok) /\
  (forall s : jsstring, ~ In 42 s -> lastInput_of (Some s) = s).
Proof.
  split; [reflexivity|]. split; [reflexivity|]. split.
  - intros pre tok Htok. unfold lastInput_of.
    destruct (pre ++ 42 :: tok) as [|c r] eqn:E.
    + destruct pre; discriminate E.
    + rewrite <- E. change (u "*") with [42].
      assert (Hin : In 42 (pre ++ 42 :: tok)) by (apply in_or_app; right; left; reflexivity).
      apply includes_char_In in Hin. rewrite Hin.
      rewrite (pop_split_after_last 42 pre tok Htok). reflexivity.
  - intros s Hs. unfold lastInput_of. destruct s as [|c r]; [reflexivity|].
    change (u "*") with [42]. rewrite (includes_char_not_In 42 (c :: r) Hs). reflexivity.
Qed.

(** ** The pattern of the SMS helper *)

(** The pattern in words: an optional plus sign, then 2 to 15 digits of
    which the first is not 0. *)
Lemma E164_test_spec (s : jsstring) :
  E164_test s = true <->
  exists d ds, (s = d :: ds \/ s = 43 :: d :: ds) /\ is_digit_1_9 d = true
    /\ forallb is_digit ds = true /\ (2 <= length (d :: ds) <= 15)%nat.
Proof.
  unfold E164_test, skip_plus. split.
  - intros H. destruct s as [|c r]; [discriminate|].
    destruct (N.eqb_spec c 43) as [-> | Hc].
    + destruct r as [|d ds]; [discriminate|].
      rewrite !andb_true_iff in H. destruct H as [[[H1 H2] H3] H4].
      apply Nat.leb_le in H3, H4. exists d, ds. simpl. repeat split; auto; lia.
    + rewrite !andb_true_iff in H. destruct H as [[[H1 H2] H3] H4].
      apply Nat.leb_le in H3, H4. exists c, r. simpl. repeat split; auto; lia.
  - intros (d & ds & Hs & H1 & H2 & H3 & H4). simpl in H3, H4.
    assert (Hd : (d =? 43) = false).
    { unfold is_digit_1_9 in H1. apply andb_true_iff in H1. destruct H1 as [H1 _].
      apply N.leb_le in H1. apply N.eqb_neq. lia. }
    assert (Hok : is_digit_1_9 d && forallb is_digit ds && (1 <=? length ds)%nat
                  && (length ds <=? 14)%nat = true).
    { rewrite !andb_true_iff. repeat split; auto; apply Nat.leb_le; lia. }
    destruct Hs as [-> | ->].
    + rewrite Hd. exact Hok.
    + rewrite N.eqb_refl. exact Hok.
Qed.

(** X19: the last input token never holds a [*]. *)
Theorem lastInput_has_no_star (text : option jsstring) :
  includes (lastInput_of text) (u "*") = false.
Proof.
  change (u "*") with [42].
  destruct text as [[|c r]|]; [reflexivity| |reflexivity].
  unfold lastInput_of. change (u "*") with [42].
  destruct (includes (c :: r) [42]) eqn:E.
  - apply includes_char_In in E.
    destruct (In_last_occurrence 42 (c :: r) E) as (pre & tok & -> & Htok).
    rewrite (pop_split_after_last 42 pre tok Htok).
    apply includes_char_not_In. exact Htok.
  - exact E.
Qed.

(** ** The clients at start-up and the calls of the handler *)

(** X28: with the clients the server builds at start-up, a request makes no
    call to the text service when the API key is missing, and no call to
    the SMS provider when the account SID, the auth token or the phone
    number of the server is missing; a message that does go to the
    provider has a sender that is not empty. *)
Theorem missing_credentials_disable_calls
    (GEMINI_API_KEY TWILIO_ACCOUNT_SID TWILIO_AUTH_TOKEN TWILIO_PHONE_NUMBER : option jsstring)
    (GoogleGenAI : jsstring -> option (generate_request -> gemini_reply))
    (twilio : jsstring -> jsstring -> option (message_request -> twilio_reply))
    (req : request) (sessions sessions' : gmap jsstring session)
    (response : jsstring) (t : list event) :
  run (handler (initAi GEMINI_API_KEY GoogleGenAI)
         (initTwilio TWILIO_ACCOUNT_SID TWILIO_AUTH_TOKEN TWILIO_PHONE_NUMBER twilio)
         (or_else TWILIO_PHONE_NUMBER []) req) sessions
  = (Ret response, sessions', t) ->
  (truthy GEMINI_API_KEY = false -> forall g, ~ In (GenerateContent g) t)
  /\ (truthy TWILIO_ACCOUNT_SID && truthy TWILIO_AUTH_TOKEN && truthy TWILIO_PHONE_NUMBER = false ->
      forall m, ~ In (MessagesCreate m) t)
  /\ (forall m, In (MessagesCreate m) t -> msg_from m <> []).
Proof.
  intros Hrun.
  destruct (handler_calls_run _ _ _ _ _ _ _ _ Hrun) as (g & p & -> & Hg & Hp).
  split; [|split].
  - intros Hkey g0 Hin. apply in_app_or in Hin. destruct Hin as [Hin | Hin].
    + destruct Hg as [-> | (client & r & s & Hai & -> & _)]; [destruct Hin|].
      unfold initAi in Hai. rewrite Hkey in Hai. discriminate Hai.
    + destruct Hp as [-> | (client & to & body & _ & _ & _ & _ & ->)]; [destruct Hin|].
      destruct Hin as [Hin | []]. discriminate Hin.
  - intros Hcred m Hin. apply in_app_or in Hin. destruct Hin as [Hin | Hin].
    + destruct Hg as [-> | (client & r & s & _ & -> & _)]; [destruct Hin|].
      destruct Hin as [Hin | []]. discriminate Hin.
    + destruct Hp as [-> | (client & to & body & Htw & _)]; [destruct Hin|].
      unfold initTwilio in Htw. rewrite Hcred in Htw. discriminate Htw.
  - intros m Hin. apply in_app_or in Hin. destruct Hin as [Hin | Hin].
    + destruct Hg as [-> | (client & r & s & _ & -> & _)]; [destruct Hin|].
      destruct Hin as [Hin | []]. discriminate Hin.
    + destruct Hp as [-> | (client & to & body & Htw & _ & _ & _ & ->)]; [destruct Hin|].
      destruct Hin as [Hin | []]. injection Hin as <-. cbn [msg_from].
      unfold initTwilio in Htw.
      destruct (truthy TWILIO_ACCOUNT_SID && truthy TWILIO_AUTH_TOKEN) ; [|discriminate Htw].
      destruct TWILIO_PHONE_NUMBER as [[|c r]|]; try discriminate Htw.
      discriminate.
Qed.

(** ** The properties at sample inputs *)

(** The scenarios of the specification. *)
Example scenario_first_contact :
  run (handler None None [] (dial "s1" "+244923000000" "")) ∅
  = (Ret mainMenu, one_session "s1" "menu", []).
Proof. vm_compute. reflexivity. Qed.

Example scenario_menu_1 :
  run (handler None None [] (dial "s1" "+244923000000" "1")) (one_session "s1" "menu")
  = (Ret (u "CON Escolha o nível de risco:" ++ nl ++ u "1. Alto" ++ nl ++ u "2. Médio" ++ nl
            ++ u "3. Baixo" ++ nl ++ u "4. Todas" ++ nl ++ u "5. Menu Principal"),
     one_session "s1" "zones_risk_level_selection", []).
Proof. vm_compute. reflexivity. Qed.

Example scenario_symptoms_without_ai :
  run (handler None (Some twilio_accepts) (u "+15550100") (dial "s1" "+244923000000" "3*febre forte"))
      (one_session "s1" "symptoms_input")
  = (Ret (u "END Serviço de IA indisponível. Verifique a configuração da API_KEY."), ∅, []).
Proof. vm_compute. reflexivity. Qed.

Example scenario_menu_9 :
  run (handler None None [] (dial "s1" "+244923000000" "9")) (one_session "s1" "menu")
  = (Ret (u "END Seleção inválida."), ∅, []).
Proof. vm_compute. reflexivity. Qed.

(** C1 fails under the session key [__proto__]: a dialog of three requests
    from the empty store is answered with the main menu and twice with
    [END]; the second request finds the session that the first [END] should
    have deleted, and the store the handler leaves after an [END] response
    still holds the session under the key of the request. *)
Theorem END_leaves_proto_session :
  dialog None None [] [proto_start; proto_9; proto_9] ∅
  = ([mainMenu; u "END Seleção inválida."; u "END Seleção inválida."], proto_store)
  /\ run (handler None None [] proto_9) proto_store
     = (Ret (u "END Seleção inválida."), proto_store, [])
  /\ startsWith (u "END Seleção inválida.") (u "END") = true
  /\ proto_store !! sessionId proto_9 = Some menu_session.
Proof. repeat split; vm_compute; reflexivity. Qed.

(** X29 at the session of [scenario_menu_9]. *)
Lemma END_deletes_own_session_witness :
  run (handler None None [] request_9) menu_store = (Ret (u "END Seleção inválida."), ∅, [])
  /\ startsWith (u "END Seleção inválida.") (u "END") = true
  /\ sessionId request_9 <> u "__proto__"
  /\ (∅ : gmap jsstring session) !! sessionId request_9 = None.
Proof.
  assert (H : run (handler None None [] request_9) menu_store
              = (Ret (u "END Seleção inválida."), ∅, [])) by (vm_compute; reflexivity).
  assert (Hend : startsWith (u "END Seleção inválida.") (u "END") = true)
    by (vm_compute; reflexivity).
  assert (Hk : sessionId request_9 <> u "__proto__")
    by (intros E; vm_compute in E; discriminate E).
  split; [exact H|]. split; [exact Hend|]. split; [exact Hk|].
  exact (proj1 (END_deletes_own_session None None [] request_9 menu_store ∅
                  (u "END Seleção inválida.") [] H Hend) Hk).
Defined.

(** C2 at the token 1, with a provider that accepts the message. *)
Lemma zones_selection_reply_witness :
  zones_store !! sessionId request_alto = Some zones_session
  /\ flow zones_session = u "zones_risk_level_selection"
  /\ In (lastInput_of (text request_alto)) riskLevelTokens
  /\ exists smsConfirmation t,
      run (sendTwilioSms (Some twilio_accepts) (u "+15550100") (phoneNumber request_alto)
             zonesSmsText) zones_store
        = (Ret smsConfirmation, zones_store, t)
      /\ run (handler None (Some twilio_accepts) (u "+15550100") request_alto) zones_store
        = (Ret (u "END " ++ zonesUssdText ++ nl ++ smsConfirmation),
           delete_property (sessionId request_alto) zones_store, t).
Proof.
  assert (Hs : zones_store !! sessionId request_alto = Some zones_session)
    by (vm_compute; reflexivity).
  assert (Hf : flow zones_session = u "zones_risk_level_selection") by reflexivity.
  assert (Htok : In (lastInput_of (text request_alto)) riskLevelTokens)
    by (vm_compute; left; reflexivity).
  split; [exact Hs|]. split; [exact Hf|]. split; [exact Htok|].
  exact (zones_selection_reply None (Some twilio_accepts) (u "+15550100")
           request_alto zones_store zones_session Hs Hf Htok).
Defined.

(** C2, as stated, fails at the token 1 (Alto): the response lists the
    Médio and the Baixo zone as well, where the formatter with the filter
    Alto lists one zone. *)
Lemma zones_selection_not_filtered :
  run (handler None None [] (dial "s1" "+244923000000" "1*1"))
      (one_session "s1" "zones_risk_level_selection")
    = (Ret (u "END " ++ zonesUssdText ++ nl ++ smsUnavailable), ∅, [])
  /\ includes (u "END " ++ zonesUssdText ++ nl ++ smsUnavailable)
        (u "2. ISPTC Talatona (Médio)") = true
  /\ includes (u "END " ++ zonesUssdText ++ nl ++ smsUnavailable)
        (u "3. Mercado Kifica (Baixo)") = true
  /\ formatZonesForUSSD toLowerCase_ascii decimal (Some sampleZones_numeric) (Some (u "Alto"))
     = u "Zonas de Risco Alto:" ++ nl ++ u "1. Clínica CSE (Alto)"
  /\ includes (u "END " ++ zonesUssdText ++ nl ++ smsUnavailable)
        (formatZonesForUSSD toLowerCase_ascii decimal (Some sampleZones_numeric) (Some (u "Alto")))
     = false.
Proof. repeat split; vm_compute; reflexivity. Qed.

(** C3 at a session left in [symptoms_input]. *)
Lemma empty_input_recovers_witness :
  one_session "s1" "symptoms_input" !! u "s1"
    = Some {| flow := u "symptoms_input"; data := ∅ |}
  /\ u "symptoms_input" <> u "initial"
  /\ u "symptoms_input" <> u "menu"
  /\ lastInput_of (Some (u "")) = []
  /\ run (handler None None [] (dial "s1" "+244923000000" "")) (one_session "s1" "symptoms_input")
     = (Ret mainMenu, <[u "s1" := menu_session]> (one_session "s1" "symptoms_input"), [])
  /\ startsWith mainMenu (u "CON") = true.
Proof.
  assert (Hs : one_session "s1" "symptoms_input" !! u "s1"
               = Some {| flow := u "symptoms_input"; data := ∅ |})
    by (vm_compute; reflexivity).
  assert (Hi : u "symptoms_input" <> u "initial") by (vm_compute; discriminate).
  assert (Hm : u "symptoms_input" <> u "menu") by (vm_compute; discriminate).
  split; [exact Hs|]. split; [exact Hi|]. split; [exact Hm|]. split; [reflexivity|].
  exact (empty_input_recovers None None [] (dial "s1" "+244923000000" "") _ _
           Hs Hi Hm eq_refl).
Defined.

(** C4 at [1*2*33] and at [7]. *)
Lemma lastInput_extraction_witness :
  lastInput_of (Some (u "1*2*33")) = u "33" /\ lastInput_of (Some (u "7")) = u "7".
Proof.
  destruct lastInput_extraction as (_ & _ & Hstar & Hplain). split.
  - change (lastInput_of (Some (u "1*2" ++ 42 :: u "33")) = u "33").
    apply Hstar. intros [H | [H | []]]; discriminate H.
  - apply Hplain. intros [H | []]; discriminate H.
Defined.

(** C5 at a described symptom, with a service that answers and a provider
    that accepts. *)
Lemma analysis_reply_witness :
  lastInput_of (Some (u "3*febre forte")) = u "febre forte"
  /\ trim (u "febre forte") <> []
  /\ analysisOutcome (Some twilio_accepts) (u "+15550100")
       (getMalariaProbabilityJS (Some gemini_answers) (Some (u "febre forte")))
       symptomsFailureMarkers
       (u "Resultado da sua análise de sintomas (USSD MapaZZZ): ") (u "END Análise: ")
       (dial "s1" "+244923000000" "3*febre forte") (one_session "s1" "symptoms_input")
       (run (handler (Some gemini_answers) (Some twilio_accepts) (u "+15550100")
               (dial "s1" "+244923000000" "3*febre forte"))
            (one_session "s1" "symptoms_input")).
Proof.
  assert (Hs : one_session "s1" "symptoms_input" !! u "s1"
               = Some {| flow := u "symptoms_input"; data := ∅ |})
    by (vm_compute; reflexivity).
  assert (Htok : lastInput_of (Some (u "3*febre forte")) = u "febre forte")
    by (vm_compute; reflexivity).
  assert (Hnb : trim (u "febre forte") <> []) by (vm_compute; discriminate).
  split; [exact Htok|]. split; [exact Hnb|].
  exact (proj1 (analysis_reply (Some gemini_answers) (Some twilio_accepts) (u "+15550100")
                  (dial "s1" "+244923000000" "3*febre forte") _ _ (u "febre forte")
                  Hs Htok Hnb) eq_refl).
Defined.

(** C5, as stated, fails at the token of one space: it is not empty, no
    helper is called, and the response is not the message the helper has
    for it. *)
Lemma blank_token_skips_analysis :
  lastInput_of (text (dial "s1" "+244923000000" "3* ")) = u " "
  /\ (u " " === []) = false
  /\ run (getMalariaProbabilityJS (Some gemini_answers) (Some (u " ")))
         (one_session "s1" "symptoms_input")
     = (Ret (u "Nenhum sintoma fornecido para análise."), one_session "s1" "symptoms_input", [])
  /\ hasMarker symptomsFailureMarkers (u "Nenhum sintoma fornecido para análise.") = true
  /\ run (handler (Some gemini_answers) (Some twilio_accepts) (u "+15550100")
            (dial "s1" "+244923000000" "3* "))
         (one_session "s1" "symptoms_input")
     = (Ret (u "END Por favor, forneça uma descrição dos sintomas. Tente novamente."), ∅, [])
  /\ (u "END Por favor, forneça uma descrição dos sintomas. Tente novamente."
       === u "END " ++ u "Nenhum sintoma fornecido para análise.") = false.
Proof. repeat split; vm_compute; reflexivity. Qed.

(** C6 at [abc], with a provider that would accept the message. *)
Lemma sendTwilioSms_rejects_witness :
  E164_test (u "abc") = false
  /\ run (sendTwilioSms (Some twilio_accepts) (u "+15550100") (Some (u "abc")) (u "Zonas")) ∅
     = (Ret (smsInvalid (u "abc")), ∅, []).
Proof.
  split; [reflexivity|].
  apply (sendTwilioSms_rejects (Some twilio_accepts) (u "+15550100") (Some (u "abc")) (u "Zonas") ∅).
  intros s Hs. injection Hs as <-. reflexivity.
Defined.

(** C6, as stated, fails at [12345]: it matches the pattern and the
    provider is called; and without a client the message for [abc] is not
    about the number. *)
Lemma sendTwilioSms_accepts_12345 :
  E164_test (u "12345") = true
  /\ run (sendTwilioSms (Some twilio_accepts) (u "+15550100") (Some (u "12345")) (u "Zonas")) ∅
     = (Ret (u "SMS enviado para 12345!"), ∅,
        [MessagesCreate {| msg_body := u "Zonas"; msg_from := u "+15550100";
                           msg_to := u "12345" |}])
  /\ run (sendTwilioSms None (u "+15550100") (Some (u "abc")) (u "Zonas")) ∅
     = (Ret (u "Serviço SMS indisponível. Verifique as credenciais Twilio."), ∅, []).
Proof. repeat split; vm_compute; reflexivity. Qed.

(** C7 at a description of 71 letters. *)
Lemma description_truncated_witness :
  filterReports toLowerCase_ascii [report71] None = [report71]
  /\ (70 < length (repeat 97 71))%nat
  /\ displayDescription report71 = take 67 (repeat 97 71) ++ u "..."
  /\ report_line decimal report71
     = or_else (title report71) (u "N/A") ++ u ": " ++ (take 67 (repeat 97 71) ++ u "...")
         ++ u " (Risco: " ++ num_or_ND decimal (report_riskLevel report71) ++ u ")" ++ nl
  /\ formatReportsForUSSD toLowerCase_ascii decimal (Some [report71]) None
     = reportsListing toLowerCase_ascii decimal None [report71] (length (@nil report)).
Proof.
  assert (Hlen : (70 < length (repeat 97 71))%nat) by (vm_compute; lia).
  split; [reflexivity|]. split; [exact Hlen|].
  exact (description_truncated toLowerCase_ascii decimal [report71] None report71 [] (repeat 97 71)
           eq_refl eq_refl Hlen).
Defined.

(** C7, as stated, fails at a description of 68 letters: it is displayed
    whole. *)
Lemma description_of_68_not_truncated :
  length (repeat 97 68) = 68%nat
  /\ displayDescription report68 = repeat 97 68
  /\ formatReportsForUSSD toLowerCase_ascii decimal (Some [report68]) None
     = u "Reportagens Geral:" ++ nl ++ u "Lixo: " ++ repeat 97 68 ++ u " (Risco: 3)"
  /\ includes (formatReportsForUSSD toLowerCase_ascii decimal (Some [report68]) None)
        (repeat 97 67 ++ u "...") = false.
Proof. repeat split; vm_compute; reflexivity. Qed.

(** C9 at a described symptom. *)
Lemma gemini_uninitialised_witness :
  run (getMalariaProbabilityJS None (Some (u "febre forte"))) ∅ = (Ret aiUnavailable, ∅, [])
  /\ run (getZoneSolutionJS None (Some (u "febre forte"))) ∅ = (Ret aiUnavailable, ∅, [])
  /\ (0 < length aiUnavailable)%nat.
Proof. apply (gemini_uninitialised None (Some (u "febre forte")) ∅). reflexivity. Defined.

(** C10 at the tokens 1 and 4, with a provider that accepts the message. *)
Lemma zones_level_has_no_influence_witness :
  zones_store !! sessionId request_alto = Some zones_session
  /\ In (lastInput_of (text request_alto)) riskLevelTokens
  /\ In (lastInput_of (text request_todas)) riskLevelTokens
  /\ run (handler None (Some twilio_accepts) (u "+15550100") request_alto) zones_store
     = run (handler None (Some twilio_accepts) (u "+15550100") request_todas) zones_store
  /\ run (handler None (Some twilio_accepts) (u "+15550100") request_alto) zones_store
     = run (zonesReply (Some twilio_accepts) (u "+15550100") (sessionId request_alto)
              (phoneNumber request_alto)) zones_store.
Proof.
  assert (Hs : zones_store !! sessionId request_alto = Some zones_session)
    by (vm_compute; reflexivity).
  assert (Hf : flow zones_session = u "zones_risk_level_selection") by reflexivity.
  assert (H1 : In (lastInput_of (text request_alto)) riskLevelTokens)
    by (vm_compute; left; reflexivity).
  assert (H4 : In (lastInput_of (text request_todas)) riskLevelTokens)
    by (vm_compute; do 3 right; left; reflexivity).
  split; [exact Hs|]. split; [exact H1|]. split; [exact H4|].
  exact (zones_level_has_no_influence None (Some twilio_accepts) (u "+15550100")
           request_alto request_todas zones_store zones_session
           Hs Hf eq_refl eq_refl H1 H4).
Defined.

(** ** The further properties at sample inputs *)

(** X2 at the first request of a dialog. *)
Lemma CON_keeps_session_witness :
  run (handler None None [] request_start) ∅ = (Ret mainMenu, menu_store, [])
  /\ startsWith mainMenu (u "CON") = true
  /\ exists f, In f liveFlows
       /\ menu_store !! sessionId request_start = Some {| flow := f; data := ∅ |}.
Proof.
  assert (Hrun : run (handler None None [] request_start) ∅ = (Ret mainMenu, menu_store, []))
    by (vm_compute; reflexivity).
  assert (Hcon : startsWith mainMenu (u "CON") = true) by (vm_compute; reflexivity).
  split; [exact Hrun|]. split; [exact Hcon|].
  exact (CON_keeps_session None None [] request_start ∅ menu_store mainMenu [] Hrun Hcon).
Defined.

(** X3 at a store of two sessions: the request of [s1] leaves [s2]. *)
Lemma handler_frame_witness :
  run (handler None None [] request_9) two_sessions
    = (Ret (u "END Seleção inválida."), other_store, [])
  /\ u "s2" <> sessionId request_9
  /\ other_store !! u "s2" = two_sessions !! u "s2".
Proof.
  assert (Hrun : run (handler None None [] request_9) two_sessions
                 = (Ret (u "END Seleção inválida."), other_store, []))
    by (vm_compute; reflexivity).
  assert (Hk : u "s2" <> sessionId request_9) by (vm_compute; discriminate).
  split; [exact Hrun|]. split; [exact Hk|].
  exact (handler_frame None None [] request_9 two_sessions other_store
           (u "END Seleção inválida.") [] (u "s2") Hrun Hk).
Defined.

(** X4 at a described symptom, with a service that answers and a provider
    that accepts: one call to each. *)
Lemma calls_per_request_witness :
  run (handler (Some gemini_answers) (Some twilio_accepts) (u "+15550100") request_fever)
      symptoms_store
    = (Ret (u "END Análise: 30% (Sintomas vagos.) SMS enviado para +244923000000!"), ∅,
       [GenerateContent (malariaRequest (u "febre forte"));
        MessagesCreate
          {| msg_body := u "Resultado da sua análise de sintomas (USSD MapaZZZ): 30% (Sintomas vagos.)";
             msg_from := u "+15550100"; msg_to := u "+244923000000" |}])
  /\ exists g p,
       [GenerateContent (malariaRequest (u "febre forte"));
        MessagesCreate
          {| msg_body := u "Resultado da sua análise de sintomas (USSD MapaZZZ): 30% (Sintomas vagos.)";
             msg_from := u "+15550100"; msg_to := u "+244923000000" |}] = g ++ p
       /\ (length g <= 1)%nat /\ existsb is_sms g = false
       /\ (length p <= 1)%nat /\ forallb is_sms p = true.
Proof.
  assert (Hrun :
    run (handler (Some gemini_answers) (Some twilio_accepts) (u "+15550100") request_fever)
        symptoms_store
    = (Ret (u "END Análise: 30% (Sintomas vagos.) SMS enviado para +244923000000!"), ∅,
       [GenerateContent (malariaRequest (u "febre forte"));
        MessagesCreate
          {| msg_body := u "Resultado da sua análise de sintomas (USSD MapaZZZ): 30% (Sintomas vagos.)";
             msg_from := u "+15550100"; msg_to := u "+244923000000" |}]))
    by (vm_compute; reflexivity).
  split; [exact Hrun|].
  exact (calls_per_request _ _ _ _ _ _ _ _ Hrun).
Defined.

(** X5 at the zones branch, with a provider that accepts. *)
Lemma sms_goes_to_caller_witness :
  run (handler None (Some twilio_accepts) (u "+15550100") request_alto) zones_store
    = (Ret (u "END " ++ zonesUssdText ++ nl ++ u "SMS enviado para +244923000000!"), ∅,
       [MessagesCreate {| msg_body := zonesSmsText; msg_from := u "+15550100";
                          msg_to := u "+244923000000" |}])
  /\ (exists client, Some twilio_accepts = Some client)
  /\ phoneNumber request_alto
     = Some (msg_to {| msg_body := zonesSmsText; msg_from := u "+15550100";
                       msg_to := u "+244923000000" |})
  /\ E164_test (msg_to {| msg_body := zonesSmsText; msg_from := u "+15550100";
                          msg_to := u "+244923000000" |}) = true
  /\ msg_from {| msg_body := zonesSmsText; msg_from := u "+15550100";
                 msg_to := u "+244923000000" |} = u "+15550100"
  /\ msg_body {| msg_body := zonesSmsText; msg_from := u "+15550100";
                 msg_to := u "+244923000000" |} <> [].
Proof.
  assert (Hrun :
    run (handler None (Some twilio_accepts) (u "+15550100") request_alto) zones_store
    = (Ret (u "END " ++ zonesUssdText ++ nl ++ u "SMS enviado para +244923000000!"), ∅,
       [MessagesCreate {| msg_body := zonesSmsText; msg_from := u "+15550100";
                          msg_to := u "+244923000000" |}]))
    by (vm_compute; reflexivity).
  split; [exact Hrun|].
  exact (sms_goes_to_caller _ _ _ _ _ _ _ _ _ Hrun (or_introl eq_refl)).
Defined.

(** X6 at a described symptom, with a service that answers and no
    provider. *)
Lemma generate_only_in_analysis_flows_witness :
  run (handler (Some gemini_answers) None [] request_fever) symptoms_store
    = (Ret (u "END Análise: 30% (Sintomas vagos.) " ++ smsUnavailable), ∅,
       [GenerateContent (malariaRequest (u "febre forte"))])
  /\ (exists client, Some gemini_answers = Some client)
  /\ exists s, symptoms_store !! sessionId request_fever = Some s
       /\ In (flow s) analysisFlows.
Proof.
  assert (Hrun :
    run (handler (Some gemini_answers) None [] request_fever) symptoms_store
    = (Ret (u "END Análise: 30% (Sintomas vagos.) " ++ smsUnavailable), ∅,
       [GenerateContent (malariaRequest (u "febre forte"))]))
    by (vm_compute; reflexivity).
  split; [exact Hrun|].
  exact (generate_only_in_analysis_flows _ _ _ _ _ _ _ _ _ Hrun (or_introl eq_refl)).
Defined.

(** X7 with a provider that accepts. *)
Lemma sendTwilioSms_delivers_witness :
  E164_test (u "+244923000000") = true
  /\ u "Zonas" <> []
  /\ run (sendTwilioSms (Some twilio_accepts) (u "+15550100") (Some (u "+244923000000"))
            (u "Zonas")) ∅
     = (Ret (u "SMS enviado para " ++ u "+244923000000" ++ u "!"), ∅,
        [MessagesCreate {| msg_body := u "Zonas"; msg_from := u "+15550100";
                           msg_to := u "+244923000000" |}]).
Proof.
  assert (Hmatch : E164_test (u "+244923000000") = true) by (vm_compute; reflexivity).
  assert (Hbody : u "Zonas" <> []) by (vm_compute; discriminate).
  split; [exact Hmatch|]. split; [exact Hbody|].
  exact (sendTwilioSms_delivers (Some twilio_accepts) (u "+15550100") twilio_accepts
           (u "+244923000000") (u "Zonas") (u "SM0001") ∅ eq_refl Hmatch Hbody eq_refl).
Defined.

(** X8 with a provider that refuses the number with the code 21211. *)
Lemma sendTwilioSms_provider_error_witness :
  E164_test (u "+244923000000") = true
  /\ u "Zonas" <> []
  /\ exists failure,
       run (sendTwilioSms (Some twilio_refuses) (u "+15550100") (Some (u "+244923000000"))
              (u "Zonas")) ∅
       = (Ret failure, ∅,
          [MessagesCreate {| msg_body := u "Zonas"; msg_from := u "+15550100";
                             msg_to := u "+244923000000" |}])
       /\ startsWith failure (u "Falha ao enviar SMS") = true
       /\ (Some 21211%Z = Some 21211%Z ->
           failure = u "Falha ao enviar SMS: Número de destino (" ++ u "+244923000000"
                       ++ u ") inválido.")
       /\ (In (Some 21211%Z) [Some 21610%Z; Some 21612%Z; Some 21614%Z] ->
           failure = u "Falha ao enviar SMS: O número " ++ u "+244923000000"
                       ++ u " não pode receber mensagens deste remetente.")
       /\ (Some 21211%Z = Some 21408%Z ->
           failure = u "Falha ao enviar SMS: Não há permissão para enviar SMS para a região do número "
                       ++ u "+244923000000" ++ u ".")
       /\ (~ In (Some 21211%Z)
               [Some 21211%Z; Some 21610%Z; Some 21612%Z; Some 21614%Z; Some 21408%Z] ->
           failure = u "Falha ao enviar SMS para " ++ u "+244923000000" ++ u ". ("
                       ++ or_else (Some (u "The number is not a valid phone number."))
                            (u "Erro desconhecido") ++ u ")").
Proof.
  assert (Hmatch : E164_test (u "+244923000000") = true) by (vm_compute; reflexivity).
  assert (Hbody : u "Zonas" <> []) by (vm_compute; discriminate).
  split; [exact Hmatch|]. split; [exact Hbody|].
  exact (sendTwilioSms_provider_error (Some twilio_refuses) (u "+15550100") twilio_refuses
           (u "+244923000000") (u "Zonas") (Some 21211%Z)
           (Some (u "The number is not a valid phone number.")) ∅
           eq_refl Hmatch Hbody eq_refl).
Defined.

(** X11 at a described symptom, with a service that throws. *)
Lemma analysis_service_error_no_sms_witness :
  symptoms_store !! sessionId request_fever = Some symptoms_session
  /\ lastInput_of (text request_fever) = u "febre forte"
  /\ trim (u "febre forte") <> []
  /\ run (handler (Some gemini_throws) (Some twilio_accepts) (u "+15550100") request_fever)
         symptoms_store
     = (Ret (u "END " ++ u "Erro ao analisar sintomas. Tente mais tarde."),
        delete_property (sessionId request_fever) symptoms_store,
        [GenerateContent (malariaRequest (u "febre forte"))]).
Proof.
  assert (Hs : symptoms_store !! sessionId request_fever = Some symptoms_session)
    by (vm_compute; reflexivity).
  assert (Htok : lastInput_of (text request_fever) = u "febre forte")
    by (vm_compute; reflexivity).
  assert (Hnb : trim (u "febre forte") <> []) by (vm_compute; discriminate).
  split; [exact Hs|]. split; [exact Htok|]. split; [exact Hnb|].
  exact (proj1 (analysis_service_error_no_sms (Some gemini_throws) (Some twilio_accepts)
                  (u "+15550100") request_fever symptoms_store symptoms_session
                  (u "febre forte") gemini_throws Hs Htok Hnb eq_refl) eq_refl eq_refl).
Defined.

(** X12 at a described symptom, with a service that answers with no text
    and a provider that accepts. *)
Lemma analysis_empty_text_is_sent_witness :
  symptoms_store !! sessionId request_fever = Some symptoms_session
  /\ lastInput_of (text request_fever) = u "febre forte"
  /\ trim (u "febre forte") <> []
  /\ exists confirmation t,
       run (sendTwilioSms (Some twilio_accepts) (u "+15550100") (phoneNumber request_fever)
              (u "Resultado da sua análise de sintomas (USSD MapaZZZ): "
                 ++ u "Não foi possível obter uma análise dos sintomas.")) symptoms_store
         = (Ret confirmation, symptoms_store, t)
       /\ run (handler (Some gemini_silent) (Some twilio_accepts) (u "+15550100") request_fever)
              symptoms_store
          = (Ret (u "END Análise: " ++ u "Não foi possível obter uma análise dos sintomas."
                    ++ u " " ++ confirmation),
             delete_property (sessionId request_fever) symptoms_store,
             GenerateContent (malariaRequest (u "febre forte")) :: t).
Proof.
  assert (Hs : symptoms_store !! sessionId request_fever = Some symptoms_session)
    by (vm_compute; reflexivity).
  assert (Htok : lastInput_of (text request_fever) = u "febre forte")
    by (vm_compute; reflexivity).
  assert (Hnb : trim (u "febre forte") <> []) by (vm_compute; discriminate).
  split; [exact Hs|]. split; [exact Htok|]. split; [exact Hnb|].
  exact (proj1 (analysis_empty_text_is_sent (Some gemini_silent) (Some twilio_accepts)
                  (u "+15550100") request_fever symptoms_store symptoms_session
                  (u "febre forte") gemini_silent None Hs Htok Hnb eq_refl eq_refl)
           eq_refl eq_refl).
Defined.

(** X13 at a described symptom. *)
Lemma analysis_without_ai_witness :
  symptoms_store !! sessionId request_fever = Some symptoms_session
  /\ lastInput_of (text request_fever) = u "febre forte"
  /\ trim (u "febre forte") <> []
  /\ In (flow symptoms_session) analysisFlows
  /\ run (handler None (Some twilio_accepts) (u "+15550100") request_fever) symptoms_store
     = (Ret (u "END " ++ aiUnavailable), delete_property (sessionId request_fever) symptoms_store, []).
Proof.
  assert (Hs : symptoms_store !! sessionId request_fever = Some symptoms_session)
    by (vm_compute; reflexivity).
  assert (Htok : lastInput_of (text request_fever) = u "febre forte")
    by (vm_compute; reflexivity).
  assert (Hnb : trim (u "febre forte") <> []) by (vm_compute; discriminate).
  assert (Hflow : In (flow symptoms_session) analysisFlows) by (left; reflexivity).
  split; [exact Hs|]. split; [exact Htok|]. split; [exact Hnb|]. split; [exact Hflow|].
  exact (analysis_without_ai None (Some twilio_accepts) (u "+15550100") request_fever
           symptoms_store symptoms_session (u "febre forte") Hs Htok Hnb eq_refl Hflow).
Defined.

(** X14 at the filter [Alto] over six zones of high risk and one of low
    risk. *)
Lemma filterZones_selects_witness :
  u "Alto" <> []
  /\ riskLevelStringToNumeric (toLowerCase_ascii (u "Alto")) = Some 3%Z
  /\ (In high_zone (filterZones toLowerCase_ascii (high_zone :: more_zones) (Some (u "Alto")))
      <-> In high_zone (high_zone :: more_zones) /\ riskLevel high_zone = Some 3%Z)
  /\ (In low_zone (filterZones toLowerCase_ascii (high_zone :: more_zones) (Some (u "Alto")))
      <-> In low_zone (high_zone :: more_zones) /\ riskLevel low_zone = Some 3%Z).
Proof.
  assert (Hf : u "Alto" <> []) by (vm_compute; discriminate).
  assert (Hn : riskLevelStringToNumeric (toLowerCase_ascii (u "Alto")) = Some 3%Z)
    by (vm_compute; reflexivity).
  split; [exact Hf|]. split; [exact Hn|].
  pose proof (proj2 (proj2 (filterZones_selects toLowerCase_ascii (high_zone :: more_zones))))
    as H.
  split; [exact (H (u "Alto") 3%Z high_zone Hf Hn) | exact (H (u "Alto") 3%Z low_zone Hf Hn)].
Defined.

(** X15 at a filter that names no level. *)
Lemma unrecognised_filter_lists_nothing_witness :
  u "Extremo" <> []
  /\ riskLevelStringToNumeric (toLowerCase_ascii (u "Extremo")) = None
  /\ formatZonesForUSSD toLowerCase_ascii decimal (Some (high_zone :: more_zones)) (Some (u "Extremo"))
     = u "Nenhuma zona de risco " ++ (toLowerCase_ascii (u "Extremo") ++ u " ")
         ++ u "encontrada.".
Proof.
  assert (Hf : u "Extremo" <> []) by (vm_compute; discriminate).
  assert (Hn : riskLevelStringToNumeric (toLowerCase_ascii (u "Extremo")) = None)
    by (vm_compute; reflexivity).
  split; [exact Hf|]. split; [exact Hn|].
  exact (unrecognised_filter_lists_nothing toLowerCase_ascii decimal (Some (high_zone :: more_zones))
           (u "Extremo") Hf Hn).
Defined.

(** X16 at six zones that pass the filter: five are listed and one is
    counted. *)
Lemma zones_listing_by_count_witness :
  filterZones toLowerCase_ascii (high_zone :: more_zones) (Some (u "Alto")) <> []
  /\ (5 < length (filterZones toLowerCase_ascii (high_zone :: more_zones) (Some (u "Alto"))))%nat
  /\ formatZonesForUSSD toLowerCase_ascii decimal (Some (high_zone :: more_zones)) (Some (u "Alto"))
     = zonesListing decimal (Some (u "Alto"))
         (take 5 (filterZones toLowerCase_ascii (high_zone :: more_zones) (Some (u "Alto"))))
         (length (filterZones toLowerCase_ascii (high_zone :: more_zones) (Some (u "Alto"))) - 5).
Proof.
  assert (Hne : filterZones toLowerCase_ascii (high_zone :: more_zones) (Some (u "Alto")) <> [])
    by (vm_compute; discriminate).
  assert (Hlen : (5 < length (filterZones toLowerCase_ascii (high_zone :: more_zones)
                                (Some (u "Alto"))))%nat)
    by (vm_compute; lia).
  split; [exact Hne|]. split; [exact Hlen|].
  exact (proj2 (zones_listing_by_count toLowerCase_ascii decimal high_zone more_zones
                  (Some (u "Alto")) Hne) Hlen).
Defined.

(** X17 at the municipality [VIANA] over two reports of Viana. *)
Lemma filterReports_selects_witness :
  isSpecificMunicipality toLowerCase_ascii (Some (u "VIANA")) = true
  /\ (In report68 (filterReports toLowerCase_ascii [report68; report71] (Some (u "VIANA")))
      <-> In report68 [report68; report71]
          /\ exists m, municipality report68 = Some m /\ m <> []
               /\ toLowerCase_ascii m = toLowerCase_ascii (u "VIANA")).
Proof.
  assert (Hg : isSpecificMunicipality toLowerCase_ascii (Some (u "VIANA")) = true)
    by (vm_compute; reflexivity).
  split; [exact Hg|].
  exact (proj2 (filterReports_selects toLowerCase_ascii [report68; report71]
                  (Some (u "VIANA"))) (u "VIANA") report68 eq_refl Hg).
Defined.

(** [description_kept] at a description of 68 letters. *)
Lemma description_kept_witness :
  description report68 = Some (repeat 97 68)
  /\ (0 < length (repeat 97 68) <= 70)%nat
  /\ displayDescription report68 = repeat 97 68.
Proof.
  assert (Hlen : (0 < length (repeat 97 68) <= 70)%nat) by (vm_compute; lia).
  split; [reflexivity|]. split; [exact Hlen|].
  exact (description_kept report68 (repeat 97 68) eq_refl Hlen).
Defined.

(** X20 at the token 1 of the main menu. *)
Lemma menu_selection_witness :
  menu_store !! sessionId request_zones = Some menu_session
  /\ In (lastInput_of (text request_zones), u "zones_risk_level_selection") menuTargets
  /\ exists prompt,
       run (handler None None [] request_zones) menu_store
       = (Ret prompt,
          <[sessionId request_zones := {| flow := u "zones_risk_level_selection"; data := ∅ |}]>
            menu_store, [])
       /\ startsWith prompt (u "CON ") = true.
Proof.
  assert (Hs : menu_store !! sessionId request_zones = Some menu_session)
    by (vm_compute; reflexivity).
  assert (Hin : In (lastInput_of (text request_zones), u "zones_risk_level_selection")
                  menuTargets)
    by (vm_compute; left; reflexivity).
  assert (Hf : flow menu_session = u "menu") by reflexivity.
  split; [exact Hs|]. split; [exact Hin|].
  exact (menu_selection None None [] request_zones menu_store menu_session
           (u "zones_risk_level_selection") Hs Hf Hin).
Defined.

(** X21 at an empty store. *)
Lemma first_contact_witness :
  (∅ : gmap jsstring session) !! sessionId request_zones = None
  /\ run (handler None None [] request_zones) ∅
     = (Ret mainMenu, <[sessionId request_zones := menu_session]> ∅, []).
Proof.
  assert (Hs : (∅ : gmap jsstring session) !! sessionId request_zones = None)
    by (vm_compute; reflexivity).
  split; [exact Hs|].
  exact (first_contact None None [] request_zones ∅ (or_introl Hs)).
Defined.

(** X22 at the token 5 of the zones submenu. *)
Lemma back_to_menu_witness :
  zones_store !! sessionId request_back = Some zones_session
  /\ In (flow zones_session, lastInput_of (text request_back)) backTokens
  /\ run (handler None None [] request_back) zones_store
     = (Ret mainMenu, <[sessionId request_back := menu_session]> zones_store, []).
Proof.
  assert (Hs : zones_store !! sessionId request_back = Some zones_session)
    by (vm_compute; reflexivity).
  assert (Hin : In (flow zones_session, lastInput_of (text request_back)) backTokens)
    by (vm_compute; left; reflexivity).
  split; [exact Hs|]. split; [exact Hin|].
  exact (back_to_menu None None [] request_back zones_store zones_session Hs Hin).
Defined.

(** X23 at a stored flow [checkout]. *)
Lemma unknown_flow_resets_witness :
  stray_store !! sessionId request_9 = Some stray_session
  /\ flow stray_session <> []
  /\ ~ In (flow stray_session) knownFlows
  /\ run (handler None None [] request_9) stray_store
     = (Ret mainMenu, <[sessionId request_9 := menu_session]> stray_store, []).
Proof.
  assert (Hs : stray_store !! sessionId request_9 = Some stray_session)
    by (vm_compute; reflexivity).
  assert (Hne : flow stray_session <> []) by (vm_compute; discriminate).
  assert (Hunknown : ~ In (flow stray_session) knownFlows).
  { vm_compute. intros H. repeat (destruct H as [H | H]; [discriminate H|]). exact H. }
  split; [exact Hs|]. split; [exact Hne|]. split; [exact Hunknown|].
  exact (unknown_flow_resets None None [] request_9 stray_store stray_session
           Hs Hne Hunknown).
Defined.

(** X24 at the token 3 (Viana), with a provider that accepts. *)
Lemma reports_selection_reply_witness :
  reports_store !! sessionId request_viana = Some reports_session
  /\ In (lastInput_of (text request_viana)) municipalityTokens
  /\ run (handler None (Some twilio_accepts) (u "+15550100") request_viana) reports_store
     = run (reportsReply (Some twilio_accepts) (u "+15550100") (sessionId request_viana)
              (phoneNumber request_viana)) reports_store
  /\ exists smsConfirmation t,
       run (sendTwilioSms (Some twilio_accepts) (u "+15550100") (phoneNumber request_viana)
              reportsSmsText) reports_store
         = (Ret smsConfirmation, reports_store, t)
       /\ run (handler None (Some twilio_accepts) (u "+15550100") request_viana) reports_store
          = (Ret (u "END " ++ reportsUssdText ++ nl ++ smsConfirmation),
             delete_property (sessionId request_viana) reports_store, t).
Proof.
  assert (Hs : reports_store !! sessionId request_viana = Some reports_session)
    by (vm_compute; reflexivity).
  assert (Hin : In (lastInput_of (text request_viana)) municipalityTokens)
    by (vm_compute; do 2 right; left; reflexivity).
  assert (Hf : flow reports_session = u "reports_municipality_selection") by reflexivity.
  split; [exact Hs|]. split; [exact Hin|].
  exact (reports_selection_reply None (Some twilio_accepts) (u "+15550100") request_viana
           reports_store reports_session Hs Hf Hin).
Defined.

(** X25 at the token 2 of the health tips, with a provider that accepts. *)
Lemma health_tip_reply_witness :
  health_store !! sessionId request_tip = Some health_session
  /\ In (lastInput_of (text request_tip),
         u "Saneamento: Mantenha quintal limpo, lixo no lugar certo, lave as mãos. Saúde!")
       healthTips
  /\ exists smsConfirmation t,
       run (sendTwilioSms (Some twilio_accepts) (u "+15550100") (phoneNumber request_tip)
              (u "Dica de Saúde (USSD MapaZZZ): "
                 ++ u "Saneamento: Mantenha quintal limpo, lixo no lugar certo, lave as mãos. Saúde!"))
           health_store
         = (Ret smsConfirmation, health_store, t)
       /\ run (handler None (Some twilio_accepts) (u "+15550100") request_tip) health_store
          = (Ret (u "END "
                    ++ u "Saneamento: Mantenha quintal limpo, lixo no lugar certo, lave as mãos. Saúde!"
                    ++ u " " ++ smsConfirmation),
             delete_property (sessionId request_tip) health_store, t).
Proof.
  assert (Hs : health_store !! sessionId request_tip = Some health_session)
    by (vm_compute; reflexivity).
  assert (Hin : In (lastInput_of (text request_tip),
                    u "Saneamento: Mantenha quintal limpo, lixo no lugar certo, lave as mãos. Saúde!")
                  healthTips)
    by (vm_compute; right; left; reflexivity).
  assert (Hf : flow health_session = u "health_tips_menu") by reflexivity.
  split; [exact Hs|]. split; [exact Hin|].
  exact (health_tip_reply None (Some twilio_accepts) (u "+15550100") request_tip
           health_store health_session
           (u "Saneamento: Mantenha quintal limpo, lixo no lugar certo, lave as mãos. Saúde!")
           Hs Hf Hin).
Defined.

(** X26 at the token 9 of the main menu. *)
Lemma refused_input_ends_witness :
  menu_store !! sessionId request_9 = Some menu_session
  /\ lastInput_of (text request_9) = u "9"
  /\ refused (u "menu") (u "9") (u "END Seleção inválida.")
  /\ exists sessions',
       run (handler None None [] request_9) menu_store
       = (Ret (u "END Seleção inválida."), sessions', [])
       /\ (sessionId request_9 <> u "__proto__"
           -> sessions' = delete (sessionId request_9) menu_store)
       /\ (sessionId request_9 = u "__proto__"
           -> exists s', sessions' !! sessionId request_9 = Some s' /\ flow s' = u "menu").
Proof.
  assert (Hs : menu_store !! sessionId request_9 = Some menu_session)
    by (vm_compute; reflexivity).
  assert (Htok : lastInput_of (text request_9) = u "9") by (vm_compute; reflexivity).
  assert (Hrefused : refused (u "menu") (u "9") (u "END Seleção inválida.")).
  { apply refused_menu; [reflexivity|].
    vm_compute. intros H. repeat (destruct H as [H | H]; [discriminate H|]). exact H. }
  assert (Hf : flow menu_session = u "menu") by reflexivity.
  split; [exact Hs|]. split; [exact Htok|]. split; [exact Hrefused|].
  exact (refused_input_ends None None [] request_9 menu_store menu_session
           (u "menu") (u "9") (u "END Seleção inválida.") Hs Hf Htok Hrefused).
Defined.

(** X27 at the dialog that dials the service, picks the zones and picks the
    level Alto, without a provider. *)
Lemma dialog_closes_witness :
  Forall (fun req => sessionId req = u "s1") [request_start; request_zones; request_alto]
  /\ dialog None None [] [request_start; request_zones; request_alto] ∅
     = ([mainMenu;
         u "CON Escolha o nível de risco:" ++ nl ++ u "1. Alto" ++ nl ++ u "2. Médio" ++ nl
           ++ u "3. Baixo" ++ nl ++ u "4. Todas" ++ nl ++ u "5. Menu Principal";
         u "END " ++ zonesUssdText ++ nl ++ smsUnavailable], ∅)
  /\ length [mainMenu;
             u "CON Escolha o nível de risco:" ++ nl ++ u "1. Alto" ++ nl ++ u "2. Médio" ++ nl
               ++ u "3. Baixo" ++ nl ++ u "4. Todas" ++ nl ++ u "5. Menu Principal";
             u "END " ++ zonesUssdText ++ nl ++ smsUnavailable]
     = length [request_start; request_zones; request_alto]
  /\ u "s1" <> u "__proto__"
  /\ (∅ : gmap jsstring session) = delete (u "s1") ∅
  /\ ((∅ : gmap jsstring session) !! u "s1" = None
      -> (∅ : gmap jsstring session) = ∅).
Proof.
  assert (Hk : Forall (fun req => sessionId req = u "s1")
                 [request_start; request_zones; request_alto])
    by (repeat constructor).
  assert (Hd : dialog None None [] [request_start; request_zones; request_alto] ∅
               = ([mainMenu;
                   u "CON Escolha o nível de risco:" ++ nl ++ u "1. Alto" ++ nl ++ u "2. Médio"
                     ++ nl ++ u "3. Baixo" ++ nl ++ u "4. Todas" ++ nl ++ u "5. Menu Principal";
                   u "END " ++ zonesUssdText ++ nl ++ smsUnavailable], ∅))
    by (vm_compute; reflexivity).
  assert (Hend : startsWith (u "END " ++ zonesUssdText ++ nl ++ smsUnavailable) (u "END ") = true)
    by (vm_compute; reflexivity).
  assert (Hlast :
    last [mainMenu;
          u "CON Escolha o nível de risco:" ++ nl ++ u "1. Alto" ++ nl ++ u "2. Médio" ++ nl
            ++ u "3. Baixo" ++ nl ++ u "4. Todas" ++ nl ++ u "5. Menu Principal";
          u "END " ++ zonesUssdText ++ nl ++ smsUnavailable]
    = Some (u "END " ++ zonesUssdText ++ nl ++ smsUnavailable)) by reflexivity.
  assert (Hown : u "s1" <> u "__proto__")
    by (intros E; vm_compute in E; discriminate E).
  split; [exact Hk|]. split; [exact Hd|].
  destruct (dialog_closes None None [] (u "s1") [request_start; request_zones; request_alto]
              ∅ ∅ _ Hk Hd) as (Hlen & Hclose & _).
  split; [exact Hlen|]. split; [exact Hown|].
  exact (Hclose (u "END " ++ zonesUssdText ++ nl ++ smsUnavailable) Hlast Hend Hown).
Defined.

(** X28 at a described symptom, in a server started with no API key and no
    auth token. *)
Lemma missing_credentials_disable_calls_witness :
  run (handler (initAi None (fun _ => Some gemini_answers))
         (initTwilio (Some (u "AC0001")) None (Some (u "+15550100"))
            (fun _ _ => Some twilio_accepts))
         (or_else (Some (u "+15550100")) []) request_fever) symptoms_store
    = (Ret (u "END " ++ aiUnavailable), ∅, [])
  /\ (truthy None = false -> forall g, ~ In (GenerateContent g) [])
  /\ (truthy (Some (u "AC0001")) && truthy None && truthy (Some (u "+15550100")) = false ->
      forall m, ~ In (MessagesCreate m) [])
  /\ (forall m, In (MessagesCreate m) [] -> msg_from m <> []).
Proof.
  assert (Hrun :
    run (handler (initAi None (fun _ => Some gemini_answers))
           (initTwilio (Some (u "AC0001")) None (Some (u "+15550100"))
              (fun _ _ => Some twilio_accepts))
           (or_else (Some (u "+15550100")) []) request_fever) symptoms_store
    = (Ret (u "END " ++ aiUnavailable), ∅, []))
    by (vm_compute; reflexivity).
  split; [exact Hrun|].
  exact (missing_credentials_disable_calls None (Some (u "AC0001")) None
           (Some (u "+15550100")) (fun _ => Some gemini_answers)
           (fun _ _ => Some twilio_accepts) request_fever symptoms_store ∅
           (u "END " ++ aiUnavailable) [] Hrun).
Defined.
